(** * DockerExecutor: one TTY-attached container session

    A shallow embedding of [src/DockerExecutor.class.ts] and
    [src/stdout.helper.ts], with the input parsers and the two input skills
    of [src/index.ts].  The class is event driven: synchronous handlers
    become functions on a [World]; every [async] function becomes a task that
    is suspended at each [await] on the container runtime or on a timer and
    is resumed by an explicit [Resume] event carrying the outcome. *)

From Stdlib Require Import List Bool Arith NArith ZArith Lia String Ascii DecimalString.
Import ListNotations.

(** ** JavaScript strings and buffers *)

Module JS.

(** A JavaScript string is a sequence of UTF-16 code units; a Node [Buffer]
    is a sequence of bytes. *)
Definition char := N.
Definition jsstring := list char.
Definition Buffer := list N.

Local Open Scope N_scope.

(** ASCII literals of the source. *)
Definition lit (s : string) : jsstring :=
  map N_of_ascii (list_ascii_of_string s).

Definition ESC : jsstring := [27].
Definition LF : jsstring := [10].
Definition CR : jsstring := [13].
Definition BS : jsstring := [8].
Definition DQ : jsstring := [34].

Fixpoint str_eqb (a b : jsstring) : bool :=
  match a, b with
  | [], [] => true
  | x :: a', y :: b' => (x =? y) && str_eqb a' b'
  | _, _ => false
  end.

(** [s.length] *)
Definition strlen (s : jsstring) : Z := Z.of_nat (List.length s).

(** [s.startsWith(x)] *)
Fixpoint startsWith (s x : jsstring) : bool :=
  match x, s with
  | [], _ => true
  | c :: x', d :: s' => (c =? d) && startsWith s' x'
  | _ :: _, [] => false
  end.

(** [s.includes(x)] *)
Fixpoint includes (s x : jsstring) : bool :=
  startsWith s x ||
  match s with
  | [] => false
  | _ :: s' => includes s' x
  end.

(** ECMAScript LineTerminator and WhiteSpace code points. *)
Definition isLineTerminator (c : char) : bool :=
  (c =? 10) || (c =? 13) || (c =? 0x2028) || (c =? 0x2029).

Definition isWhiteSpace (c : char) : bool :=
  (c =? 9) || (c =? 11) || (c =? 12) || (c =? 32) || (c =? 0xA0) ||
  (c =? 0x1680) || ((0x2000 <=? c) && (c <=? 0x200A)) ||
  (c =? 0x202F) || (c =? 0x205F) || (c =? 0x3000) || (c =? 0xFEFF).

Definition isTrimmed (c : char) : bool := isWhiteSpace c || isLineTerminator c.

Fixpoint trimStart (s : jsstring) : jsstring :=
  match s with
  | [] => []
  | c :: s' => if isTrimmed c then trimStart s' else s
  end.

Definition trimEnd (s : jsstring) : jsstring := rev' (trimStart (rev' s)).

(** [s.trim()] *)
Definition trim (s : jsstring) : jsstring := trimEnd (trimStart s).

(** [s.slice(start, end)], both indices relative to the end when negative. *)
Definition relIndex (len i : Z) : Z :=
  if (i <? 0)%Z then Z.max (len + i) 0 else Z.min i len.

Definition slice (s : jsstring) (start stop : Z) : jsstring :=
  let len := strlen s in
  let from := relIndex len start in
  let to := relIndex len stop in
  firstn (Z.to_nat (Z.max (to - from) 0)) (skipn (Z.to_nat from) s).

(** [s.slice(start)] *)
Definition sliceFrom (s : jsstring) (start : Z) : jsstring :=
  skipn (Z.to_nat (relIndex (strlen s) start)) s.

(** [s.toUpperCase()].  On a text of ASCII code units the result is written
    out: the letters a to z are mapped, everything else stays.  On a text
    that holds a code unit from 128 on, the result is the Unicode case mapping
    of the runtime (which maps, for one, U+0131 to I and U+017F to S, and may
    change the length of the text); it is not part of the program and is
    taken as the table [unicode] of the runtime. *)
Definition upperChar (c : char) : char :=
  if (97 <=? c) && (c <=? 122) then c - 32 else c.

Definition isAscii (c : char) : bool := c <? 128.

Definition toUpperCase (unicode : jsstring -> jsstring) (s : jsstring) : jsstring :=
  if forallb isAscii s then map upperChar s else unicode s.

(** [String(n)] for an integer. *)
Definition ofInt (z : Z) : jsstring :=
  lit (NilEmpty.string_of_int (Z.to_int z)).

(** [buf.toString()]: UTF-8 decoding with U+FFFD for every ill-formed
    subsequence, then UTF-16 encoding. *)
Record Utf8 := { cp : N; need : nat; lower : N; upper : N }.

Definition utf8_start : Utf8 := {| cp := 0; need := 0; lower := 0x80; upper := 0xBF |}.

(** a byte met while no sequence is open: the code points it completes and
    the decoder state after it *)
Definition utf8_lead (b : N) : list N * Utf8 :=
  if b <=? 0x7F then ([b], utf8_start)
  else if (0xC2 <=? b) && (b <=? 0xDF) then
    ([], {| cp := N.land b 0x1F; need := 1; lower := 0x80; upper := 0xBF |})
  else if (0xE0 <=? b) && (b <=? 0xEF) then
    ([], {| cp := N.land b 0xF; need := 2;
            lower := if b =? 0xE0 then 0xA0 else 0x80;
            upper := if b =? 0xED then 0x9F else 0xBF |})
  else if (0xF0 <=? b) && (b <=? 0xF4) then
    ([], {| cp := N.land b 0x7; need := 3;
            lower := if b =? 0xF0 then 0x90 else 0x80;
            upper := if b =? 0xF4 then 0x8F else 0xBF |})
  else ([0xFFFD], utf8_start).

Fixpoint utf8_decode (st : Utf8) (bs : Buffer) : list N :=
  match bs with
  | [] => match need st with O => [] | S _ => [0xFFFD] end
  | b :: rest =>
      match need st with
      | O => let '(out, st') := utf8_lead b in out ++ utf8_decode st' rest
      | S n =>
          if (lower st <=? b) && (b <=? upper st) then
            let c := N.lor (N.shiftl (cp st) 6) (N.land b 0x3F) in
            match n with
            | O => c :: utf8_decode utf8_start rest
            | S _ => utf8_decode {| cp := c; need := n; lower := 0x80; upper := 0xBF |} rest
            end
          else
            let '(out, st') := utf8_lead b in
            0xFFFD :: out ++ utf8_decode st' rest
      end
  end.

Definition utf16 (c : N) : jsstring :=
  if c <? 0x10000 then [c]
  else [0xD800 + (c - 0x10000) / 0x400; 0xDC00 + (c - 0x10000) mod 0x400].

Definition toString (b : Buffer) : jsstring :=
  flat_map utf16 (utf8_decode utf8_start b).

End JS.

Import JS.

Notation "w |> f" := (f w) (at level 45, left associativity, only parsing).

(** ** The session, its host and the runtime around it *)

(** Handles of the container runtime and of the promise behind [ready()]. *)
Definition Container := nat.
Definition Stream := nat.
Definition Promise := nat.

(** What dockerode rejects with: an [Error] carrying [message] and, for an
    HTTP answer, [statusCode]. *)
Record Error := { message : jsstring; statusCode : option Z }.

Definition mkError (m : jsstring) : Error := {| message := m; statusCode := None |}.

(** Argument of a [write]: a string or the raw chunk. *)
Inductive Written :=
| Text (s : jsstring)
| Raw (b : Buffer).

(** Argument of [console.log] / [console.error]. *)
Inductive LogArg :=
| Str (s : jsstring)
| Obj (e : Error).

Inductive DockerCall :=
| Ping
| Pull (image : jsstring)
| Create (image : jsstring)
| Start (c : Container)
| Attach (c : Container)
| Stop (c : Container)
| Remove (c : Container).

(** How the promise returned by [runNewContainer] settles. *)
Inductive Settlement :=
| Fulfilled
| Rejected (e : Error).

(** Everything the class does to the outside, in the order it happens
    (most recent first in [effects]).  [Enter_destroyContainer] and
    [Enter_resetState] mark the calls of these two methods. *)
Inductive Effect :=
| Stdout (x : Written)
| ConsoleLog (args : list LogArg)
| ConsoleError (args : list LogArg)
| StreamWrite (s : Stream) (x : Written)
| StreamEnd (s : Stream)
| SetRawMode (b : bool)
| StdinResume
| StdinPause
| Docker (c : DockerCall)
| Resolve (p : Promise)
| Enter_destroyContainer
| Enter_resetState
| Settle (r : Settlement).

(** Closure variables of one stdin listener of [setupTTYSTDIN]. *)
Record CommandMode := { commandBuffer : jsstring; isInCommandMode : bool }.

(** Who awaits a running [destroyContainer]: the [catch] of [runContainer],
    the stream's [end] handler, its [error] handler, or the Ctrl+C branch of
    the stdin listener. *)
Inductive After := AfterCatch | AfterEnd | AfterError | AfterInterrupt.

(** Suspension points of [destroyContainer]. *)
Inductive DestroyPC :=
| D_ping      (* await this.checkDockerAvailable() *)
| D_return    (* the 1000 ms wait before an early return *)
| D_stop      (* await this.container?.stop() *)
| D_remove    (* await this.container?.remove() *)
| D_final.    (* the closing 1500 ms wait *)

(** Suspension points of the detached task started at the end of
    [runContainer]; [B_term k] is the wait after the [k]-th command of
    [setupTerminalReservation], whose locals it carries. *)
Inductive BootPC :=
| B_delay1000
| B_ready (p : Promise)
| B_delay500
| B_term (k : nat) (usableRows actualCols : Z)
| B_delay5000.

(** A suspended asynchronous computation. *)
Inductive Task :=
| Creating_ping (image : jsstring)
| Creating_pull (image : jsstring)
| Creating_create (image : jsstring)
| Running_start
| Running_attach
| Destroying (pc : DestroyPC) (k : After)
| Boot (pc : BootPC)
| StatusTimer.

(** What a suspended task is resumed with. *)
Inductive Outcome :=
| Done
| Created (c : Container)
| Attached (s : Stream)
| Failed (e : Error).

(** The fields of [DockerExecutor] ([onDataCallback] is never assigned and
    stays [null]), the closure state of the stdin listeners, the host
    terminal, the Unicode case mapping of the runtime (which no code of the
    class changes), and the bookkeeping of the event loop. *)
Record World := {
  container : option Container;
  ttyStream : option Stream;
  _buffer : jsstring;
  isFirstData : bool;
  shouldStop : bool;
  readyPromise : Promise;
  readyResolve : option Promise;
  imageName : jsstring;
  stdinListeners : list CommandMode;
  stdinFlowing : bool;
  isRaw : bool;
  rows : Z;
  columns : Z;
  caseMapping : jsstring -> jsstring;
  listening : list Stream;
  tasks : list (nat * Task);
  nextId : nat;
  effects : list Effect
}.

Definition set_container (v : option Container) (w : World) : World :=
  {| container := v; ttyStream := ttyStream w; _buffer := _buffer w;
     isFirstData := isFirstData w; shouldStop := shouldStop w;
     readyPromise := readyPromise w; readyResolve := readyResolve w;
     imageName := imageName w; stdinListeners := stdinListeners w;
     stdinFlowing := stdinFlowing w; isRaw := isRaw w; rows := rows w;
     columns := columns w; caseMapping := caseMapping w; listening := listening w; tasks := tasks w;
     nextId := nextId w; effects := effects w |}.

Definition set_ttyStream (v : option Stream) (w : World) : World :=
  {| container := container w; ttyStream := v; _buffer := _buffer w;
     isFirstData := isFirstData w; shouldStop := shouldStop w;
     readyPromise := readyPromise w; readyResolve := readyResolve w;
     imageName := imageName w; stdinListeners := stdinListeners w;
     stdinFlowing := stdinFlowing w; isRaw := isRaw w; rows := rows w;
     columns := columns w; caseMapping := caseMapping w; listening := listening w; tasks := tasks w;
     nextId := nextId w; effects := effects w |}.

Definition set_buffer (v : jsstring) (w : World) : World :=
  {| container := container w; ttyStream := ttyStream w; _buffer := v;
     isFirstData := isFirstData w; shouldStop := shouldStop w;
     readyPromise := readyPromise w; readyResolve := readyResolve w;
     imageName := imageName w; stdinListeners := stdinListeners w;
     stdinFlowing := stdinFlowing w; isRaw := isRaw w; rows := rows w;
     columns := columns w; caseMapping := caseMapping w; listening := listening w; tasks := tasks w;
     nextId := nextId w; effects := effects w |}.

Definition set_isFirstData (v : bool) (w : World) : World :=
  {| container := container w; ttyStream := ttyStream w; _buffer := _buffer w;
     isFirstData := v; shouldStop := shouldStop w; readyPromise := readyPromise w;
     readyResolve := readyResolve w; imageName := imageName w;
     stdinListeners := stdinListeners w; stdinFlowing := stdinFlowing w;
     isRaw := isRaw w; rows := rows w; columns := columns w; caseMapping := caseMapping w; listening := listening w;
     tasks := tasks w; nextId := nextId w; effects := effects w |}.

Definition set_shouldStop (v : bool) (w : World) : World :=
  {| container := container w; ttyStream := ttyStream w; _buffer := _buffer w;
     isFirstData := isFirstData w; shouldStop := v; readyPromise := readyPromise w;
     readyResolve := readyResolve w; imageName := imageName w;
     stdinListeners := stdinListeners w; stdinFlowing := stdinFlowing w;
     isRaw := isRaw w; rows := rows w; columns := columns w; caseMapping := caseMapping w; listening := listening w;
     tasks := tasks w; nextId := nextId w; effects := effects w |}.

Definition set_readyPromise (v : Promise) (w : World) : World :=
  {| container := container w; ttyStream := ttyStream w; _buffer := _buffer w;
     isFirstData := isFirstData w; shouldStop := shouldStop w; readyPromise := v;
     readyResolve := readyResolve w; imageName := imageName w;
     stdinListeners := stdinListeners w; stdinFlowing := stdinFlowing w;
     isRaw := isRaw w; rows := rows w; columns := columns w; caseMapping := caseMapping w; listening := listening w;
     tasks := tasks w; nextId := nextId w; effects := effects w |}.

Definition set_readyResolve (v : option Promise) (w : World) : World :=
  {| container := container w; ttyStream := ttyStream w; _buffer := _buffer w;
     isFirstData := isFirstData w; shouldStop := shouldStop w;
     readyPromise := readyPromise w; readyResolve := v; imageName := imageName w;
     stdinListeners := stdinListeners w; stdinFlowing := stdinFlowing w;
     isRaw := isRaw w; rows := rows w; columns := columns w; caseMapping := caseMapping w; listening := listening w;
     tasks := tasks w; nextId := nextId w; effects := effects w |}.

Definition set_imageName (v : jsstring) (w : World) : World :=
  {| container := container w; ttyStream := ttyStream w; _buffer := _buffer w;
     isFirstData := isFirstData w; shouldStop := shouldStop w;
     readyPromise := readyPromise w; readyResolve := readyResolve w; imageName := v;
     stdinListeners := stdinListeners w; stdinFlowing := stdinFlowing w;
     isRaw := isRaw w; rows := rows w; columns := columns w; caseMapping := caseMapping w; listening := listening w;
     tasks := tasks w; nextId := nextId w; effects := effects w |}.

Definition set_stdinListeners (v : list CommandMode) (w : World) : World :=
  {| container := container w; ttyStream := ttyStream w; _buffer := _buffer w;
     isFirstData := isFirstData w; shouldStop := shouldStop w;
     readyPromise := readyPromise w; readyResolve := readyResolve w;
     imageName := imageName w; stdinListeners := v; stdinFlowing := stdinFlowing w;
     isRaw := isRaw w; rows := rows w; columns := columns w; caseMapping := caseMapping w; listening := listening w;
     tasks := tasks w; nextId := nextId w; effects := effects w |}.

Definition set_stdinFlowing (v : bool) (w : World) : World :=
  {| container := container w; ttyStream := ttyStream w; _buffer := _buffer w;
     isFirstData := isFirstData w; shouldStop := shouldStop w;
     readyPromise := readyPromise w; readyResolve := readyResolve w;
     imageName := imageName w; stdinListeners := stdinListeners w; stdinFlowing := v;
     isRaw := isRaw w; rows := rows w; columns := columns w; caseMapping := caseMapping w; listening := listening w;
     tasks := tasks w; nextId := nextId w; effects := effects w |}.

Definition set_isRaw (v : bool) (w : World) : World :=
  {| container := container w; ttyStream := ttyStream w; _buffer := _buffer w;
     isFirstData := isFirstData w; shouldStop := shouldStop w;
     readyPromise := readyPromise w; readyResolve := readyResolve w;
     imageName := imageName w; stdinListeners := stdinListeners w;
     stdinFlowing := stdinFlowing w; isRaw := v; rows := rows w; columns := columns w; caseMapping := caseMapping w;
     listening := listening w; tasks := tasks w; nextId := nextId w;
     effects := effects w |}.

Definition set_listening (v : list Stream) (w : World) : World :=
  {| container := container w; ttyStream := ttyStream w; _buffer := _buffer w;
     isFirstData := isFirstData w; shouldStop := shouldStop w;
     readyPromise := readyPromise w; readyResolve := readyResolve w;
     imageName := imageName w; stdinListeners := stdinListeners w;
     stdinFlowing := stdinFlowing w; isRaw := isRaw w; rows := rows w;
     columns := columns w; caseMapping := caseMapping w; listening := v; tasks := tasks w; nextId := nextId w;
     effects := effects w |}.

Definition set_tasks (v : list (nat * Task)) (w : World) : World :=
  {| container := container w; ttyStream := ttyStream w; _buffer := _buffer w;
     isFirstData := isFirstData w; shouldStop := shouldStop w;
     readyPromise := readyPromise w; readyResolve := readyResolve w;
     imageName := imageName w; stdinListeners := stdinListeners w;
     stdinFlowing := stdinFlowing w; isRaw := isRaw w; rows := rows w;
     columns := columns w; caseMapping := caseMapping w; listening := listening w; tasks := v; nextId := nextId w;
     effects := effects w |}.

Definition set_nextId (v : nat) (w : World) : World :=
  {| container := container w; ttyStream := ttyStream w; _buffer := _buffer w;
     isFirstData := isFirstData w; shouldStop := shouldStop w;
     readyPromise := readyPromise w; readyResolve := readyResolve w;
     imageName := imageName w; stdinListeners := stdinListeners w;
     stdinFlowing := stdinFlowing w; isRaw := isRaw w; rows := rows w;
     columns := columns w; caseMapping := caseMapping w; listening := listening w; tasks := tasks w; nextId := v;
     effects := effects w |}.

Definition set_effects (v : list Effect) (w : World) : World :=
  {| container := container w; ttyStream := ttyStream w; _buffer := _buffer w;
     isFirstData := isFirstData w; shouldStop := shouldStop w;
     readyPromise := readyPromise w; readyResolve := readyResolve w;
     imageName := imageName w; stdinListeners := stdinListeners w;
     stdinFlowing := stdinFlowing w; isRaw := isRaw w; rows := rows w;
     columns := columns w; caseMapping := caseMapping w; listening := listening w; tasks := tasks w;
     nextId := nextId w; effects := v |}.

(** ** Terminal, console and stream primitives *)

Definition emit (e : Effect) (w : World) : World := set_effects (e :: effects w) w.

Definition stdout_write (x : Written) : World -> World := emit (Stdout x).
Definition console_log (args : list LogArg) : World -> World := emit (ConsoleLog args).
Definition console_error (args : list LogArg) : World -> World := emit (ConsoleError args).

(** [this.ttyStream?.write(x)] and [this.ttyStream?.end()] *)
Definition stream_write (x : Written) (w : World) : World :=
  match ttyStream w with
  | Some s => emit (StreamWrite s x) w
  | None => w
  end.

Definition stream_end (w : World) : World :=
  match ttyStream w with
  | Some s => emit (StreamEnd s) w
  | None => w
  end.

(** [updateStatus] and [clearStatus] of [stdout.helper.ts]: save the cursor,
    go to the bottom line, clear it, (write the banner,) restore the cursor. *)
Definition updateStatus (msg : jsstring) (w : World) : World :=
  w |> stdout_write (Text (ESC ++ lit "[s"))
    |> stdout_write (Text (ESC ++ lit "[" ++ ofInt (rows w) ++ lit ";1H"))
    |> stdout_write (Text (ESC ++ lit "[2K"))
    |> stdout_write (Text (ESC ++ lit "[46m" ++ ESC ++ lit "[30m Status: " ++ msg ++
                           lit " " ++ ESC ++ lit "[0m"))
    |> stdout_write (Text (ESC ++ lit "[u")).

Definition clearStatus (w : World) : World :=
  w |> stdout_write (Text (ESC ++ lit "[s"))
    |> stdout_write (Text (ESC ++ lit "[" ++ ofInt (rows w) ++ lit ";1H"))
    |> stdout_write (Text (ESC ++ lit "[2K"))
    |> stdout_write (Text (ESC ++ lit "[u")).

Definition restoreTerminal (w : World) : World :=
  let w1 := clearStatus w in
  let w2 := if isRaw w1 then w1 |> set_isRaw false |> emit (SetRawMode false) else w1 in
  w2 |> set_stdinFlowing false |> emit StdinPause.

(** A new task, suspended until it is resumed by its identifier. *)
Definition suspend (t : Task) (w : World) : World :=
  w |> set_tasks ((nextId w, t) :: tasks w) |> set_nextId (S (nextId w)).

(** Has [readyResolve()] been called for promise [p]? *)
Definition isResolve (p : Promise) (e : Effect) : bool :=
  match e with
  | Resolve q => Nat.eqb p q
  | _ => false
  end.

Definition resolved (p : Promise) (w : World) : bool := existsb (isResolve p) (effects w).

(** [error.message || error] as a console argument. *)
Definition messageOr (e : Error) : LogArg :=
  match message e with
  | [] => Obj e
  | m => Str m
  end.

(** [error.message.includes('ENOENT') || error.message.includes('docker_engine')] *)
Definition lostConnection (e : Error) : bool :=
  includes (message e) (lit "ENOENT") || includes (message e) (lit "docker_engine").

Definition package : jsstring := [0xD83D; 0xDCE6]%N.
Definition bullet : jsstring := [0x2022]%N.

(** ** The class: state, lifecycle *)

(** The state the constructor leaves ([setupProcessSignals] only registers
    process-level handlers and is outside this model). *)
Definition newDockerExecutor (image : jsstring) (termRows termCols : Z)
    (unicode : jsstring -> jsstring) : World :=
  {| container := None; ttyStream := None; _buffer := []; isFirstData := true;
     shouldStop := false; readyPromise := 0; readyResolve := Some 0;
     imageName := image; stdinListeners := []; stdinFlowing := false; isRaw := false;
     rows := termRows; columns := termCols; caseMapping := unicode; listening := [];
     tasks := []; nextId := 1; effects := [] |}.

Definition stop (w : World) : World :=
  w |> set_shouldStop true
    |> updateStatus (lit "Stop command received - shutting down...")
    |> suspend StatusTimer
    |> stream_end.

Definition resetState (w : World) : World :=
  w |> emit Enter_resetState
    |> set_container None
    |> set_ttyStream None
    |> set_buffer []
    |> set_isFirstData true
    |> set_shouldStop false
    |> set_readyPromise (nextId w)
    |> set_readyResolve (Some (nextId w))
    |> set_nextId (S (nextId w)).

Definition isReady (w : World) : bool :=
  match container w, ttyStream w with
  | None, None => true
  | _, _ => false
  end.

Definition sendInput (command : jsstring) : World -> World := stream_write (Text command).

(** ** [destroyContainer] *)

(** What runs once [destroyContainer] has returned to its caller; every
    caller resets the state and logs. *)
Definition finish (k : After) (w : World) : World :=
  match k with
  | AfterCatch =>
      w |> resetState
        |> console_log [Str (LF ++ package ++ lit " Container operation failed. Ready for new operations.")]
        |> emit (Settle Fulfilled)
  | AfterEnd | AfterInterrupt =>
      w |> resetState
        |> console_log [Str (LF ++ package ++ lit " Container session ended. Ready for new operations.")]
  | AfterError =>
      w |> resetState
        |> console_log [Str (LF ++ package ++ lit " Container session ended due to error. Ready for new operations.")]
  end.

(** Entry of [destroyContainer], up to the first [await]. *)
Definition destroyContainer (k : After) (w : World) : World :=
  w |> emit Enter_destroyContainer
    |> updateStatus (lit "Destroying container...")
    |> emit (Docker Ping)
    |> suspend (Destroying D_ping k).

(** [await this.container?.remove(); this.updateStatus('Container destroyed')] *)
Definition removePhase (k : After) (w : World) : World :=
  match container w with
  | Some c => w |> emit (Docker (Remove c)) |> suspend (Destroying D_remove k)
  | None => w |> updateStatus (lit "Container destroyed") |> suspend (Destroying D_final k)
  end.

(** [await this.container?.stop()] *)
Definition stopPhase (k : After) (w : World) : World :=
  match container w with
  | Some c => w |> emit (Docker (Stop c)) |> suspend (Destroying D_stop k)
  | None => removePhase k w
  end.

(** The outer [catch] of [destroyContainer]. *)
Definition reportCleanupFailure (e : Error) (w : World) : World :=
  if lostConnection e then
    w |> updateStatus (lit "Docker connection lost during cleanup")
      |> console_log [Str (lit "Warning: Could not connect to Docker for cleanup - container may need manual removal")]
  else
    match statusCode e with
    | Some 409%Z => w
    | _ => w |> console_log [Str (lit "Error during cleanup:"); messageOr e]
    end.

(** The outer [catch], then the closing wait. *)
Definition cleanupFailed (e : Error) (k : After) (w : World) : World :=
  w |> reportCleanupFailure e |> suspend (Destroying D_final k).

Definition resumeDestroy (pc : DestroyPC) (k : After) (o : Outcome) (w : World) : option World :=
  match pc, o with
  | D_ping, Done => Some (stopPhase k w)
  | D_ping, Failed _ =>
      Some (w |> updateStatus (lit "Docker not available - container may already be cleaned up")
              |> suspend (Destroying D_return k))
  | D_stop, Done => Some (removePhase k w)
  | D_stop, Failed e =>
      match statusCode e with
      | Some 304%Z => Some (removePhase k w)
      | _ =>
          if lostConnection e then
            Some (w |> updateStatus (lit "Docker connection lost - container cleanup skipped")
                    |> suspend (Destroying D_return k))
          else Some (cleanupFailed e k w)
      end
  | D_remove, Done =>
      Some (w |> updateStatus (lit "Container destroyed") |> suspend (Destroying D_final k))
  | D_remove, Failed e => Some (cleanupFailed e k w)
  | D_return, Done => Some (w |> clearStatus |> finish k)
  | D_final, Done => Some (w |> clearStatus |> finish k)
  | _, _ => None
  end.

(** ** Stream consumption: [setupTTYStream] *)

Definition quoted (k : string) : jsstring := DQ ++ lit k ++ DQ ++ lit ":".

(** The rest of [s] after the first occurrence of [x]. *)
Fixpoint afterFirst (s x : jsstring) : option jsstring :=
  if startsWith s x then Some (skipn (List.length x) s)
  else match s with
       | [] => None
       | _ :: s' => afterFirst s' x
       end.

(** [t.match(/^[{"].*stream.*true.*[}"]$/)]: [t] opens with a brace or a
    quote, closes with a brace or a quote, and between them, with no line
    terminator, "stream" comes before "true". *)
Definition matchesMetadataPattern (t : jsstring) : bool :=
  match t with
  | [] => false
  | c :: rest =>
      ((c =? 123) || (c =? 34))%N &&
      match rev' rest with
      | [] => false
      | l :: dim =>
          ((l =? 125) || (l =? 34))%N &&
          forallb (fun x => negb (isLineTerminator x)) dim &&
          match afterFirst (rev' dim) (lit "stream") with
          | Some tl => includes tl (lit "true")
          | None => false
          end
      end
  end.

Definition isDockerMetadata (data : jsstring) : bool :=
  includes data (quoted "stream") ||
  includes data (quoted "hijack") ||
  includes data (quoted "stderr") ||
  includes data (quoted "stdin") ||
  includes data (quoted "stdout") ||
  includes data (lit "stream:true") ||
  includes data (lit "hijack:true") ||
  includes data (lit "stdin:true") ||
  includes data (lit "stdout:true") ||
  includes data (lit "stderr:true") ||
  (startsWith data (lit "{") && includes data (DQ ++ lit ":true}")) ||
  (includes data (lit "{" ++ DQ) && includes data (DQ ++ lit ":true")) ||
  matchesMetadataPattern (trim data).

(** [this._buffer += data] and the cut that keeps the buffer manageable. *)
Definition appendOutput (buf data : jsstring) : jsstring :=
  let buf' := buf ++ data in
  if (10000 <? strlen buf')%Z then sliceFrom buf' (-5000) else buf'.

Definition hasPrompt (data : jsstring) : bool :=
  includes data (lit "root@") || includes data (lit "# ") || includes data (lit "$ ").

Definition hasOutput (data : jsstring) : bool :=
  (10 <? strlen (trim data))%Z && negb (isDockerMetadata data).

Definition hasNewline (data : jsstring) : bool := includes data LF.

(** The condition under which the handler calls [readyResolve]. *)
Definition signalsReady (data : jsstring) : bool :=
  hasPrompt data || (hasOutput data && hasNewline data).

(** The ['data'] handler. *)
Definition onData (chunk : Buffer) (w : World) : World :=
  let data := toString chunk in
  if isDockerMetadata data then w
  else
    let w1 :=
      if isFirstData w && (0 <? strlen (trim data))%Z then set_isFirstData false w else w in
    let w2 := w1 |> stdout_write (Raw chunk) |> set_buffer (appendOutput (_buffer w1) data) in
    match readyResolve w2 with
    | Some p =>
        if signalsReady data then w2 |> emit (Resolve p) |> set_readyResolve None else w2
    | None => w2
    end.

(** The ['end'] handler, up to its [await]. *)
Definition onEnd (w : World) : World :=
  let w1 :=
    w |> clearStatus
      |> console_log [Str (if shouldStop w
                           then LF ++ LF ++ lit "Container TTY session ended by user command"
                           else LF ++ LF ++ lit "Container TTY session ended unexpectedly")]
      |> restoreTerminal in
  match container w1 with
  | Some _ => destroyContainer AfterEnd w1
  | None => finish AfterEnd w1
  end.

(** The ['error'] handler. *)
Definition onError (error : Error) (w : World) : World :=
  let w1 :=
    w |> clearStatus
      |> console_error [Str (lit "Container TTY error: " ++ message error)]
      |> restoreTerminal in
  match container w1 with
  | Some _ => destroyContainer AfterError w1
  | None =>
      w1 |> resetState |> console_log [Str (LF ++ package ++ lit " Ready for new operations.")]
  end.

(** ** Input routing: [handleInternalCommand] and [setupTTYSTDIN] *)

Definition handleInternalCommand (command : jsstring) (w : World) : World :=
  if str_eqb command (lit "STOP") || str_eqb command (lit "EXIT") || str_eqb command (lit "QUIT")
  then w |> updateStatus (lit "Stopping container...") |> stop
  else if str_eqb command (lit "HELP") || str_eqb command (lit "?")
  then w |> updateStatus (lit "Commands: STOP/EXIT/QUIT - Stop container, HELP/? - Show help. Use F12 to enter command mode.")
  else if str_eqb command (lit "STATUS")
  then w |> updateStatus (lit "Container running. Buffer size: " ++ ofInt (strlen (_buffer w)) ++
                          lit " chars. TTY active.")
  else if str_eqb command (lit "CLEAR")
  then w |> set_buffer [] |> updateStatus (lit "Buffer cleared.")
  else if str_eqb (trim command) []
  then w |> updateStatus (lit "Command mode cancelled.")
  else w |> updateStatus (lit "Unknown command: " ++ command ++
                          lit ". Available: STOP, HELP, STATUS, CLEAR").

(** [data[0] === n], false on an empty buffer. *)
Definition firstByteIs (data : Buffer) (n : N) : bool :=
  match data with
  | b :: _ => (b =? n)%N
  | [] => false
  end.

Definition firstByteIn (data : Buffer) (lo hi : N) : bool :=
  match data with
  | b :: _ => ((lo <=? b) && (b <=? hi))%N
  | [] => false
  end.

(** The F12 escape sequence and the command-mode prompt. *)
Definition F12 : jsstring := ESC ++ lit "[24~".
Definition commandPrompt : jsstring :=
  LF ++ [0xD83D; 0xDD27]%N ++ lit " Command mode (F12 to activate): ".

(** The Ctrl+C branch of the stdin listener. *)
Definition onInterrupt (w : World) : World :=
  let w1 :=
    w |> clearStatus
      |> console_log [Str (LF ++ lit "^C - Ending container session")]
      |> stream_end
      |> restoreTerminal in
  match container w1 with
  | Some _ => destroyContainer AfterInterrupt w1
  | None =>
      w1 |> resetState |> console_log [Str (LF ++ package ++ lit " Ready for new operations.")]
  end.

Definition passThrough : CommandMode := {| commandBuffer := []; isInCommandMode := false |}.

(** One stdin listener on one ['data'] event: its closure variables and the
    world, before and after. *)
Definition onStdin (data : Buffer) (st : CommandMode * World) : CommandMode * World :=
  let '(cm, w) := st in
  let input := toString data in
  if firstByteIs data 3 then (cm, onInterrupt w)
  else if str_eqb input F12 then
    ({| commandBuffer := []; isInCommandMode := true |},
     stdout_write (Text commandPrompt) w)
  else if isInCommandMode cm then
    if firstByteIs data 127 || firstByteIs data 8 then
      if (0 <? strlen (commandBuffer cm))%Z then
        ({| commandBuffer := slice (commandBuffer cm) 0 (-1); isInCommandMode := true |},
         stdout_write (Text (BS ++ lit " " ++ BS)) w)
      else (passThrough, stdout_write (Text LF) w)
    else if firstByteIs data 13 || firstByteIs data 10 then
      let command := toUpperCase (caseMapping w) (trim (commandBuffer cm)) in
      (passThrough, w |> stdout_write (Text LF) |> handleInternalCommand command)
    else if firstByteIn data 32 126 then
      ({| commandBuffer := commandBuffer cm ++ input; isInCommandMode := true |},
       stdout_write (Text input) w)
    else (cm, w)
  else (cm, stream_write (Raw data) w).

(** Every registered listener sees the event, oldest first. *)
Fixpoint onStdinAll (data : Buffer) (ls : list CommandMode) (w : World) : list CommandMode * World :=
  match ls with
  | [] => ([], w)
  | cm :: ls' =>
      let '(cm', w') := onStdin data (cm, w) in
      let '(ls'', w'') := onStdinAll data ls' w' in
      (cm' :: ls'', w'')
  end.

Definition stdinEvent (data : Buffer) (w : World) : World :=
  let '(ls, w') := onStdinAll data (stdinListeners w) w in
  set_stdinListeners ls w'.

Definition setupTTYSTDIN (w : World) : World :=
  w |> set_isRaw true |> emit (SetRawMode true)
    |> set_stdinFlowing true |> emit StdinResume
    |> set_stdinListeners (stdinListeners w ++ [passThrough]).

(** ** Spawning: [runNewContainer], [runContainer], [createContainer] *)

Definition alreadyActive : Error :=
  mkError (lit "DockerExecutor is still managing an active container. End the current session first.").

Definition engineUnavailable : Error :=
  mkError (lit "Docker Engine is not running or not accessible." ++ LF ++
           lit "Please ensure Docker Desktop is started and running." ++ LF ++
           bullet ++ lit " On Windows: Start Docker Desktop from the Start menu" ++ LF ++
           bullet ++ lit " On macOS: Start Docker Desktop from Applications" ++ LF ++
           bullet ++ lit " On Linux: Start the Docker daemon (sudo systemctl start docker)" ++ LF ++
           LF ++ lit "Once Docker is running, try again.").

Definition lostDuring (what : string) : Error :=
  mkError (lit "Lost connection to Docker Engine during " ++ lit what ++ lit "." ++ LF ++
           lit "Please ensure Docker Desktop remains running and try again.").

(** The [catch] blocks of [createContainer]: clear the status, then rethrow,
    a lost connection under a message of its own. *)
Definition rethrow (what : string) (e : Error) : Error :=
  if lostConnection e then lostDuring what else e.

(** The console report at the head of the [catch] of [runContainer]. *)
Definition reportError (error : Error) (w : World) : World :=
  if includes (message error) (lit "Docker Engine is not running") ||
     includes (message error) (lit "Lost connection to Docker Engine")
  then
    w |> console_error [Str (LF ++ [0x274C]%N ++ lit " Docker Error:")]
      |> console_error [Str (message error)]
      |> console_error [Str (LF ++ lit "Please start Docker and try again.")]
  else
    w |> console_error [Str (LF ++ [0x274C]%N ++ lit " An error occurred:"); messageOr error].

(** The [catch] of [runContainer]. *)
Definition catchRun (error : Error) (w : World) : World :=
  let w1 := w |> clearStatus |> reportError error |> restoreTerminal in
  match container w1 with
  | Some _ =>
      w1 |> console_log [Str (LF ++ lit "Cleaning up partial container...")]
         |> destroyContainer AfterCatch
  | None => finish AfterCatch w1
  end.

(** [runContainer] up to the first [await], which is the connectivity probe
    of [createContainer]. *)
Definition runContainer (w : World) : World :=
  w |> updateStatus (lit "Initializing container...")
    |> updateStatus (lit "Checking Docker Engine availability...")
    |> emit (Docker Ping)
    |> suspend (Creating_ping (imageName w)).

(** [runNewContainer(imageName?)]: the error it throws, or the world in
    which [runContainer] has started. *)
Definition runNewContainer (image : option jsstring) (w : World) : Error + World :=
  if negb (isReady w) then inl alreadyActive
  else
    inr (runContainer
           match image with
           | Some (c :: i) => set_imageName (c :: i) w
           | _ => w
           end).

(** The detached task of [runContainer] up to its first [await], then the
    return of [runContainer]. *)
Definition afterAttach (w : World) : World :=
  w |> setupTTYSTDIN
    |> suspend (Boot B_delay1000)
    |> emit (Settle Fulfilled).

(** [setupTTYStream] up to [await this.container?.attach(...)]. *)
Definition setupTTYStream (w : World) : World :=
  match container w with
  | Some c => w |> emit (Docker (Attach c)) |> suspend Running_attach
  | None => w |> set_ttyStream None |> afterAttach
  end.

Definition started (w : World) : World :=
  w |> updateStatus (lit "Container started - TTY session active")
    |> console_log [Str (lit "Terminal size: " ++ ofInt (columns w) ++ lit "x" ++ ofInt (rows w))]
    |> console_log [Str (lit "Starting container TTY session. You will see all operations in real-time...")]
    |> console_log [Str ([0xD83D; 0xDCA1]%N ++ lit " Tip: Press F12 to enter command mode, then type HELP or STOP" ++ LF)]
    |> setupTTYStream.

(** [await this.container?.start()] *)
Definition startPhase (w : World) : World :=
  match container w with
  | Some c => w |> emit (Docker (Start c)) |> suspend Running_start
  | None => started w
  end.

(** ** The detached task: nudge, wait for readiness, terminal geometry, fallback *)

Definition orDefault (n d : Z) : Z := if (n =? 0)%Z then d else n.

Definition resumeBoot (pc : BootPC) (w : World) : option World :=
  match pc with
  | B_delay1000 =>
      Some (w |> updateStatus (lit "Getting initial prompt...")
              |> stream_write (Text CR)
              |> suspend (Boot (B_ready (readyPromise w))))
  | B_ready p =>
      if resolved p w then Some (suspend (Boot B_delay500) w) else None
  | B_delay500 =>
      match ttyStream w with
      | None => Some (suspend (Boot B_delay5000) w)
      | Some _ =>
          let usableRows := (orDefault (rows w) 24 - 2)%Z in
          let actualCols := orDefault (columns w) 80 in
          Some (w |> updateStatus (lit "Configuring terminal to reserve status area...")
                  |> sendInput (lit "export LINES=" ++ ofInt usableRows ++ CR)
                  |> suspend (Boot (B_term 1 usableRows actualCols)))
      end
  | B_term 1 r c =>
      Some (w |> sendInput (lit "export COLUMNS=" ++ ofInt c ++ CR) |> suspend (Boot (B_term 2 r c)))
  | B_term 2 r c =>
      Some (w |> sendInput (lit "tput csr 0 " ++ ofInt (r - 1) ++ CR) |> suspend (Boot (B_term 3 r c)))
  | B_term 3 r c =>
      Some (w |> sendInput (lit "clear" ++ CR) |> suspend (Boot (B_term 4 r c)))
  | B_term 4 r c =>
      Some (w |> sendInput (lit "tput cup 0 0" ++ CR) |> suspend (Boot (B_term 5 r c)))
  | B_term 5 r c =>
      Some (w |> sendInput (lit "clear" ++ CR) |> suspend (Boot (B_term 6 r c)))
  | B_term 6 r c =>
      Some (w |> updateStatus (lit "Terminal configured: " ++ ofInt r ++ lit "x" ++ ofInt c ++
                               lit " (reserved 2 bottom lines)")
              |> suspend (Boot B_delay5000))
  | B_term _ _ _ => None
  | B_delay5000 =>
      match readyResolve w with
      | Some p => Some (w |> emit (Resolve p) |> set_readyResolve None)
      | None => Some w
      end
  end.

(** ** The event loop *)

(** Resuming a suspended task with the outcome of what it awaited; [None]
    when the outcome is not one the awaited operation can have. *)
Definition resume (t : Task) (o : Outcome) (w : World) : option World :=
  match t, o with
  | Creating_ping image, Done =>
      Some (w |> console_log [Str (lit "Pulling image: " ++ image)]
              |> updateStatus (lit "Pulling image: " ++ image ++ lit "...")
              |> emit (Docker (Pull image))
              |> suspend (Creating_pull image))
  | Creating_ping _, Failed _ => Some (w |> clearStatus |> catchRun engineUnavailable)
  | Creating_pull image, Done =>
      Some (w |> console_log [Str (lit "Image pulled.")]
              |> updateStatus (lit "Creating container...")
              |> emit (Docker (Create image))
              |> suspend (Creating_create image))
  | Creating_pull _, Failed e => Some (w |> clearStatus |> catchRun (rethrow "image pull" e))
  | Creating_create _, Created c =>
      Some (w |> updateStatus (lit "Container created")
              |> set_container (Some c)
              |> updateStatus (lit "Starting container...")
              |> startPhase)
  | Creating_create _, Failed e =>
      Some (w |> clearStatus |> catchRun (rethrow "container creation" e))
  | Running_start, Done => Some (started w)
  | Running_start, Failed e => Some (catchRun e w)
  | Running_attach, Attached s =>
      Some (w |> set_ttyStream (Some s) |> set_listening (s :: listening w) |> afterAttach)
  | Running_attach, Failed e => Some (catchRun e w)
  | Destroying pc k, _ => resumeDestroy pc k o w
  | Boot pc, Done => resumeBoot pc w
  | StatusTimer, Done => Some (clearStatus w)
  | _, _ => None
  end.

Inductive Event :=
| Call_runNewContainer (image : option jsstring)
| Call_stop
| Call_sendInput (command : jsstring)
| Stream_data (s : Stream) (chunk : Buffer)
| Stream_end (s : Stream)
| Stream_error (s : Stream) (e : Error)
| Stdin_data (data : Buffer)
| Resume (id : nat) (o : Outcome).

(** The task with identifier [id], taken out of the pool. *)
Fixpoint takeTask (id : nat) (ts : list (nat * Task)) : option (Task * list (nat * Task)) :=
  match ts with
  | [] => None
  | (i, t) :: ts' =>
      if Nat.eqb i id then Some (t, ts')
      else match takeTask id ts' with
           | Some (t', rest) => Some (t', (i, t) :: rest)
           | None => None
           end
  end.

Definition isListening (s : Stream) (w : World) : bool := existsb (Nat.eqb s) (listening w).

(** One turn of the event loop; [None] when the event cannot occur in [w]
    (a stream without handlers, a paused stdin, no such task). *)
Definition step (w : World) (ev : Event) : option World :=
  match ev with
  | Call_runNewContainer image =>
      match runNewContainer image w with
      | inl e => Some (emit (Settle (Rejected e)) w)
      | inr w' => Some w'
      end
  | Call_stop => Some (stop w)
  | Call_sendInput command => Some (sendInput command w)
  | Stream_data s chunk => if isListening s w then Some (onData chunk w) else None
  | Stream_end s => if isListening s w then Some (onEnd w) else None
  | Stream_error s e => if isListening s w then Some (onError e w) else None
  | Stdin_data data => if stdinFlowing w then Some (stdinEvent data w) else None
  | Resume id o =>
      match takeTask id (tasks w) with
      | Some (t, rest) => resume t o (set_tasks rest w)
      | None => None
      end
  end.

Fixpoint run (w : World) (evs : list Event) : option World :=
  match evs with
  | [] => Some w
  | ev :: evs' =>
      match step w ev with
      | Some w' => run w' evs'
      | None => None
      end
  end.

(** ** Vocabulary of the properties *)

(** The ceiling of the output buffer. *)
Definition bufferOk (w : World) : Prop := (strlen (_buffer w) <= 10000)%Z.

(** A fresh executor on a 24x80 terminal, and the events of a spawn in which
    every step of the runtime succeeds (container 7, stream 9).  The examples
    type ASCII only, so the case mapping of their runtime is never consulted;
    the one given here maps the letters a to z wherever they stand. *)
Definition session0 : World :=
  newDockerExecutor (lit "ubuntu:latest") 24 80 (map upperChar).

Definition spawnOk : list Event :=
  [Call_runNewContainer None; Resume 1 Done; Resume 2 Done; Resume 3 (Created 7);
   Resume 4 Done; Resume 5 (Attached 9)].

Definition orElse (o : option World) (d : World) : World :=
  match o with
  | Some w => w
  | None => d
  end.

(** The session once attached, and after a first chunk of 9999 letters. *)
Definition attached : World := orElse (run session0 spawnOk) session0.
Definition nearlyFull : World := onData (repeat 97%N (N.to_nat 9999)) attached.

(** A chunk the classifier takes for runtime metadata although a shell
    prompt follows the framing. *)
Definition framedPrompt : Buffer :=
  lit "{" ++ DQ ++ lit "stream" ++ DQ ++ lit ":true} root@box:/# ".

(** The readiness condition in the words of the specification: a prompt
    fragment, or more than 10 non-whitespace characters and a line break. *)
Definition notBlank (c : char) : bool := negb (isTrimmed c).

Definition nonWhitespace (data : jsstring) : Z := strlen (filter notBlank data).

Definition spec_signalsReady (data : jsstring) : bool :=
  hasPrompt data || ((10 <? nonWhitespace data)%Z && hasNewline data).

(** Two letters, nine blanks between them, and a line feed. *)
Definition sparseLine : Buffer := lit "a         b" ++ LF.

(** Keystrokes, as the chunks stdin delivers in raw mode, fed to one
    listener in order. *)
Definition F12key : Buffer := [27; 91; 50; 52; 126]%N.
Definition Enter : Buffer := [13]%N.
Definition Newline : Buffer := [10]%N.
Definition Backspace : Buffer := [127]%N.

Definition keys (ds : list Buffer) (st : CommandMode * World) : CommandMode * World :=
  fold_left (fun st d => onStdin d st) ds st.

(** The banner [updateStatus] writes for a message, and the STATUS report. *)
Definition statusBanner (msg : jsstring) : Effect :=
  Stdout (Text (ESC ++ lit "[46m" ++ ESC ++ lit "[30m Status: " ++ msg ++ lit " " ++
                ESC ++ lit "[0m")).

Definition statusReport (w : World) : jsstring :=
  lit "Container running. Buffer size: " ++ ofInt (strlen (_buffer w)) ++ lit " chars. TTY active.".

(** Texts echoed to the host terminal, in order. *)
Definition echo (texts : list jsstring) (w : World) : World :=
  fold_left (fun w t => stdout_write (Text t) w) texts w.

(** Counting what happened: calls of [readyResolve], of [resetState] and of
    [destroyContainer], read off the effects. *)
Definition isResolveEffect (e : Effect) : bool :=
  match e with
  | Resolve _ => true
  | _ => false
  end.

Definition isResetEffect (e : Effect) : bool :=
  match e with
  | Enter_resetState => true
  | _ => false
  end.

Definition isDestroyEffect (e : Effect) : bool :=
  match e with
  | Enter_destroyContainer => true
  | _ => false
  end.

Definition countEffects (f : Effect -> bool) (w : World) : nat :=
  List.length (filter f (effects w)).

Definition fires : World -> nat := countEffects isResolveEffect.
Definition resets : World -> nat := countEffects isResetEffect.
Definition destroys : World -> nat := countEffects isDestroyEffect.

(** One latch instance: without a reset in between, either the latch and
    the number of fires are as before, or the armed latch was fired once
    and is now spent. *)
Definition LatchStep (w w' : World) : Prop :=
  resets w <= resets w' /\
  (resets w' = resets w ->
   (readyResolve w' = readyResolve w /\ fires w' = fires w) \/
   (readyResolve w <> None /\ readyResolve w' = None /\ fires w' = S (fires w))).

(** A prompt chunk, and a session in which two prompts arrive and the
    detached task then runs through all its waits, the fallback included
    (its successive suspensions have the identifiers 6 to 15). *)
Definition promptChunk : Buffer := lit "root@box:/# ".

Definition twoPromptsAndFallback : list Event :=
  [Stream_data 9 promptChunk; Stream_data 9 promptChunk] ++
  map (fun i => Resume i Done) (seq 6 10).

(** A silent shell: no stream chunk that would fire the latch ever arrives;
    every other event may occur, timers included. *)
Definition silent (ev : Event) : bool :=
  match ev with
  | Stream_data _ chunk =>
      isDockerMetadata (toString chunk) || negb (signalsReady (toString chunk))
  | _ => true
  end.

(** The suspension points of the detached task that lie behind its
    [await this.ready()]; the fallback is the last of them. *)
Definition pastReady (t : Task) : bool :=
  match t with
  | Boot B_delay500 | Boot (B_term _ _ _) | Boot B_delay5000 => true
  | _ => false
  end.

Definition beforeReady (it : nat * Task) : bool := negb (pastReady (snd it)).

(** The latch is armed and has never fired, and no detached task has got
    past its wait for readiness. *)
Definition Waiting (w : World) : Prop :=
  fires w = 0 /\ readyResolve w <> None /\ forallb beforeReady (tasks w) = true.

Definition StaysWaiting (w w' : World) : Prop := Waiting w -> Waiting w'.

(** A spawn that succeeds on a shell that stays silent: the one-second wait
    of the detached task elapses, a blank chunk arrives, stop is called. *)
Definition silentSession : list Event :=
  spawnOk ++ [Resume 6 Done; Stream_data 9 (lit "   "); Call_stop].

(** The awaited steps of a spawn, the docker calls made so far (most recent
    first), the rejections handed to callers, and how far a running
    [destroyContainer] is from its end. *)
Definition isSpawnTask (t : Task) : bool :=
  match t with
  | Creating_ping _ | Creating_pull _ | Creating_create _ | Running_start | Running_attach => true
  | _ => false
  end.

Definition dockerCall (e : Effect) : list DockerCall :=
  match e with
  | Docker c => [c]
  | _ => []
  end.

Definition dockerCalls (w : World) : list DockerCall := flat_map dockerCall (effects w).

Definition isRejection (e : Effect) : bool :=
  match e with
  | Settle (Rejected _) => true
  | _ => false
  end.

Definition destroyRank (pc : DestroyPC) : nat :=
  match pc with
  | D_ping => 4
  | D_stop => 3
  | D_remove => 2
  | D_return | D_final => 1
  end.

(** What the [catch] of [runContainer] leaves behind. *)
Definition Caught (w w' : World) : Prop :=
  countEffects isRejection w' = countEffects isRejection w /\
  isRaw w' = false /\ stdinFlowing w' = false /\
  match container w with
  | None =>
      container w' = None /\ ttyStream w' = None /\ _buffer w' = [] /\
      shouldStop w' = false /\
      readyResolve w' = Some (nextId w) /\ tasks w' = tasks w /\
      resets w' = S (resets w) /\ destroys w' = destroys w /\
      dockerCalls w' = dockerCalls w /\
      hd_error (effects w') = Some (Settle Fulfilled)
  | Some c =>
      container w' = Some c /\
      tasks w' = (nextId w, Destroying D_ping AfterCatch) :: tasks w /\
      resets w' = resets w /\ destroys w' = S (destroys w) /\
      dockerCalls w' = Ping :: dockerCalls w
  end.

(** One resumption of [destroyContainer] at suspension point [pc]: it moves
    on to a later suspension point with the handles untouched, or it is
    over and its caller has reset the session. *)
Definition Teardown (pc : DestroyPC) (k : After) (w w' : World) : Prop :=
  destroys w' = destroys w /\
  ((exists pc',
      tasks w' = (nextId w, Destroying pc' k) :: tasks w /\
      destroyRank pc' < destroyRank pc /\
      resets w' = resets w /\
      container w' = container w /\ ttyStream w' = ttyStream w)
   \/
   (tasks w' = tasks w /\ container w' = None /\ ttyStream w' = None /\ _buffer w' = [] /\
    resets w' = S (resets w) /\ readyResolve w' = Some (nextId w) /\
    (k = AfterCatch -> hd_error (effects w') = Some (Settle Fulfilled)))).

(** A spawn whose container was created and whose start is pending. *)
Definition starting : World :=
  orElse (run session0 [Call_runNewContainer None; Resume 1 Done; Resume 2 Done;
                        Resume 3 (Created 7)]) session0.

(** Teardowns in progress, and the resets made or still owed by them. *)
Definition isDestroying (it : nat * Task) : bool :=
  match snd it with
  | Destroying _ _ => true
  | _ => false
  end.

Definition pendingTeardowns (w : World) : nat := List.length (filter isDestroying (tasks w)).

Definition resetsDue (w : World) : nat := resets w + pendingTeardowns w.

Definition notSpawning (it : nat * Task) : bool := negb (isSpawnTask (snd it)).

Definition noSpawn (w : World) : Prop := forallb notSpawning (tasks w) = true.

(** The events of a running session, a new spawn and the keyboard apart;
    among them the end and the error of the stream start a teardown. *)
Definition sessionEvent (ev : Event) : bool :=
  match ev with
  | Call_runNewContainer _ | Stdin_data _ => false
  | _ => true
  end.

Definition startsTeardown (ev : Event) : bool :=
  match ev with
  | Stream_end _ | Stream_error _ _ => true
  | _ => false
  end.

Definition teardownsStarted (evs : list Event) : nat := List.length (filter startsTeardown evs).

(** With no spawn in flight, [n] more resets are made or owed, and at most
    [n] more calls of [destroyContainer]. *)
Definition Account (n : nat) (w w' : World) : Prop :=
  noSpawn w ->
  noSpawn w' /\
  resetsDue w' = resetsDue w + n /\
  destroys w <= destroys w' <= destroys w + n /\
  resets w <= resets w'.

(** [stop] twice, the end event of the stream, and the teardown it starts
    run to its end with a runtime that answers every call. *)
Definition stopStopEnd : list Event :=
  [Call_stop; Call_stop; Stream_end 9; Resume 9 Done; Resume 10 Done; Resume 11 Done;
   Resume 12 Done].

(** The task suspended last, resumed with an outcome of the runtime; a list
    of outcomes answered in turn; and the image a spawn works with. *)
Definition resumeLast (o : Outcome) (w : World) : option World :=
  match tasks w with
  | (id, _) :: _ => step w (Resume id o)
  | [] => None
  end.

Fixpoint answers (os : list Outcome) (w : World) : option World :=
  match os with
  | [] => Some w
  | o :: os' =>
      match resumeLast o w with
      | Some w' => answers os' w'
      | None => None
      end
  end.

Definition effectiveImage (image : option jsstring) (w : World) : jsstring :=
  match image with
  | Some (c :: i) => c :: i
  | _ => imageName w
  end.

(** Stream chunks handled in order, and the text of those among them that
    are real output. *)
Definition feed (chunks : list Buffer) (w : World) : World :=
  fold_left (fun w chunk => onData chunk w) chunks w.

Definition isRealOutput (chunk : Buffer) : bool := negb (isDockerMetadata (toString chunk)).

Definition realText (chunks : list Buffer) : jsstring :=
  List.concat (map toString (filter isRealOutput chunks)).

Definition notStreamData (ev : Event) : bool :=
  match ev with
  | Stream_data _ _ => false
  | _ => true
  end.

(** The buffer is as it was, or empty. *)
Definition KeptOrEmptied (w w' : World) : Prop :=
  _buffer w' = _buffer w \/ _buffer w' = [].

(** What was written to the container stream (most recent first), and a
    chunk that is neither Ctrl+C nor the F12 sequence. *)
Definition streamWrite (e : Effect) : list (Stream * Written) :=
  match e with
  | StreamWrite s x => [(s, x)]
  | _ => []
  end.

Definition streamWrites (w : World) : list (Stream * Written) := flat_map streamWrite (effects w).

Definition plainKeys (data : Buffer) : bool :=
  negb (firstByteIs data 3) && negb (str_eqb (toString data) F12).

Definition inPassThrough (cm : CommandMode) : bool := negb (isInCommandMode cm).







(** Printable characters typed one key at a time, and the text that erases
    one character on the terminal. *)
Definition typed (cs : jsstring) : list Buffer := map (fun c => [c]) cs.

Definition isPrintable (c : N) : bool := ((32 <=? c) && (c <=? 126))%N.

Definition erase : jsstring := BS ++ lit " " ++ BS.

Definition commandMode (acc : jsstring) : CommandMode :=
  {| commandBuffer := acc; isInCommandMode := true |}.

(** The shell commands of [setupTerminalReservation] for [r] usable rows and
    [c] columns, in the order they are sent. *)
Definition terminalSetup (r c : Z) : list jsstring :=
  [lit "export LINES=" ++ ofInt r ++ CR;
   lit "export COLUMNS=" ++ ofInt c ++ CR;
   lit "tput csr 0 " ++ ofInt (r - 1) ++ CR;
   lit "clear" ++ CR;
   lit "tput cup 0 0" ++ CR;
   lit "clear" ++ CR].

Definition usableRows (w : World) : Z := (orDefault (rows w) 24 - 2)%Z.
Definition actualCols (w : World) : Z := orDefault (columns w) 80.

(** A first session that becomes ready, is configured and ends, followed by
    a second spawn whose shell has not written anything yet: the detached
    task of the first session is still in its last wait. *)
Definition secondSession : list Event :=
  [Resume 6 Done; Stream_data 9 promptChunk] ++ map (fun i => Resume i Done) (seq 7 8) ++
  [Stream_end 9; Resume 16 Done; Resume 17 Done; Resume 18 Done; Resume 19 Done;
   Call_runNewContainer None; Resume 21 Done; Resume 22 Done; Resume 23 (Created 8);
   Resume 24 Done; Resume 25 (Attached 10); Resume 26 Done].

Definition respawned : World := orElse (run attached secondSession) attached.

(** The ten marker strings of the metadata classifier, and the three
    characters without which no chunk is classified as metadata: colon,
    opening brace and double quote. *)
Definition markers : list jsstring :=
  [quoted "stream"; quoted "hijack"; quoted "stderr"; quoted "stdin"; quoted "stdout";
   lit "stream:true"; lit "hijack:true"; lit "stdin:true"; lit "stdout:true";
   lit "stderr:true"].

Definition structural (c : char) : bool := ((c =? 58) || (c =? 123) || (c =? 34))%N.

Definition plainText (data : jsstring) : bool := forallb (fun c => negb (structural c)) data.

(** ** The input skills of [index.ts] *)

(** [input.replace(/\\.../g, ...)] for a pattern that starts with a
    backslash: the text is scanned from the left; at a backslash the rule is
    tried on what follows it and answers with the replacement and the number
    of characters the match takes after the backslash; [skip] counts the
    characters of the current match still to be passed over. *)
Definition Rule := jsstring -> option (jsstring * nat).

Fixpoint replaceAll (rule : Rule) (skip : nat) (s : jsstring) : jsstring :=
  match s with
  | [] => []
  | c :: s' =>
      match skip with
      | S k => replaceAll rule k s'
      | O =>
          if (c =? 92)%N then
            match rule s' with
            | Some (replacement, n) => replacement ++ replaceAll rule n s'
            | None => c :: replaceAll rule 0 s'
            end
          else c :: replaceAll rule 0 s'
      end
  end.

(** [/\\k/g] replaced by the character [r]. *)
Definition escape (k r : char) : Rule := fun rest =>
  match rest with
  | c :: _ => if (c =? k)%N then Some ([r], 1) else None
  | [] => None
  end.

Definition hexValue (c : char) : option N :=
  if ((48 <=? c) && (c <=? 57))%N then Some (c - 48)%N
  else if ((97 <=? c) && (c <=? 102))%N then Some (c - 87)%N
  else if ((65 <=? c) && (c <=? 70))%N then Some (c - 55)%N
  else None.

Definition octValue (c : char) : option N :=
  if ((48 <=? c) && (c <=? 55))%N then Some (c - 48)%N else None.

(** [/\\u([0-9a-fA-F]{4})/g] with [String.fromCharCode(parseInt(hex, 16))]. *)
Definition unicodeEscape : Rule := fun rest =>
  match rest with
  | u :: digits =>
      if (u =? 117)%N then
        match digits with
        | a :: b :: c :: d :: _ =>
            match hexValue a, hexValue b, hexValue c, hexValue d with
            | Some x, Some y, Some z, Some t => Some ([(((x * 16 + y) * 16 + z) * 16 + t)%N], 5)
            | _, _, _, _ => None
            end
        | _ => None
        end
      else None
  | [] => None
  end.

(** [/\\([0-7]{1,3})/g] with [String.fromCharCode(parseInt(octal, 8))]; the
    quantifier is greedy. *)
Definition octalEscape : Rule := fun rest =>
  match rest with
  | a :: rest1 =>
      match octValue a with
      | None => None
      | Some x =>
          match rest1 with
          | b :: rest2 =>
              match octValue b with
              | None => Some ([x], 1)
              | Some y =>
                  match rest2 with
                  | c :: _ =>
                      match octValue c with
                      | None => Some ([(x * 8 + y)%N], 2)
                      | Some z => Some ([((x * 8 + y) * 8 + z)%N], 3)
                      end
                  | [] => Some ([(x * 8 + y)%N], 2)
                  end
              end
          | [] => Some ([x], 1)
          end
      end
  | [] => None
  end.

(** [/\\x([0-9a-fA-F]{2})/g] with [String.fromCharCode(parseInt(hex, 16))]. *)
Definition hexEscape : Rule := fun rest =>
  match rest with
  | x :: digits =>
      if (x =? 120)%N then
        match digits with
        | a :: b :: _ =>
            match hexValue a, hexValue b with
            | Some h, Some l => Some ([(h * 16 + l)%N], 2 + 1)
            | _, _ => None
            end
        | _ => None
        end
      else None
  | [] => None
  end.

Definition parseCarriageReturn (input : jsstring) : jsstring :=
  replaceAll (escape 114%N 13%N) 0 input.

Definition parseEscapeSequences (input : jsstring) : jsstring :=
  input |> replaceAll unicodeEscape 0
        |> replaceAll (escape 110%N 10%N) 0
        |> replaceAll (escape 114%N 13%N) 0
        |> replaceAll (escape 116%N 9%N) 0
        |> replaceAll (escape 98%N 8%N) 0
        |> replaceAll (escape 102%N 12%N) 0
        |> replaceAll (escape 118%N 11%N) 0
        |> replaceAll (escape 48%N 0%N) 0
        |> replaceAll octalEscape 0
        |> replaceAll hexEscape 0
        |> replaceAll (escape 92%N 92%N) 0.

(** The skills SendTTYInput and SendTTYInputWithEscapeSequences, up to their
    wait: [if (ttyInput.trim())] sends the parsed input. *)
Definition sendParsed (parse : jsstring -> jsstring) (ttyInput : jsstring) (w : World) : World :=
  match trim ttyInput with
  | [] => w
  | _ :: _ =>
      w |> updateStatus (lit "Running command: " ++ ttyInput)
        |> sendInput (parse ttyInput)
  end.

Definition SendTTYInput : jsstring -> World -> World := sendParsed parseCarriageReturn.

Definition SendTTYInputWithEscapeSequences : jsstring -> World -> World :=
  sendParsed parseEscapeSequences.

(** Texts without a backslash, texts that [trim] empties, and the escapes
    [parseEscapeSequences] names by a letter, with the character of each. *)
Definition noBackslash (s : jsstring) : bool := forallb (fun c => negb (c =? 92)%N) s.

Definition blank (s : jsstring) : bool := forallb isTrimmed s.

Definition namedEscapes : list (char * char) :=
  [(110, 10); (114, 13); (116, 9); (98, 8); (102, 12); (118, 11); (48, 0)]%N.

(** How often [setupTTYSTDIN] has run, read off the effects, and the
    account of the stdin listeners: none is ever removed, one is added by
    each run of [setupTTYSTDIN]. *)
Definition isStdinResume (e : Effect) : bool :=
  match e with
  | StdinResume => true
  | _ => false
  end.

Definition attachedSessions : World -> nat := countEffects isStdinResume.

Definition ListenersKept (w w' : World) : Prop :=
  attachedSessions w <= attachedSessions w' /\
  List.length (stdinListeners w') + attachedSessions w =
  List.length (stdinListeners w) + attachedSessions w'.

Definition SameListeners (w w' : World) : Prop :=
  stdinListeners w' = stdinListeners w /\ attachedSessions w' = attachedSessions w.







(** * Properties *)

(** ** Proof tools

    Symbolic execution of a handler: the world is taken apart into its
    fields, the handler is unfolded on it, and every condition it tests is
    split, innermost first.  Messages and string operations stay folded. *)

Create HintDb world discriminated.

#[export] Hint Unfold
  sendInput stream_write stream_end stop restoreTerminal finish removePhase stopPhase
  reportCleanupFailure cleanupFailed reportError catchRun setupTTYStream started startPhase
  onEnd onError onInterrupt handleInternalCommand : world.

Ltac simpw :=
  repeat (progress (
    autounfold with world in *;
    cbn [container ttyStream _buffer isFirstData shouldStop readyPromise readyResolve
         imageName stdinListeners stdinFlowing isRaw rows columns caseMapping listening
         tasks nextId effects
         set_container set_ttyStream set_buffer set_isFirstData set_shouldStop
         set_readyPromise set_readyResolve set_imageName set_stdinListeners
         set_stdinFlowing set_isRaw set_listening set_tasks set_nextId set_effects
         emit stdout_write console_log console_error
         updateStatus clearStatus suspend resetState
         destroyContainer runContainer afterAttach setupTTYSTDIN fst snd] in *)).

Ltac plain b :=
  lazymatch b with
  | context [if _ then _ else _] => fail
  | context [match _ with _ => _ end] => fail
  | _ => idtac
  end.

Ltac break_if :=
  match goal with
  | |- context [if ?b then _ else _] => plain b; destruct b eqn:?
  | |- context [match ?x with _ => _ end] => plain x; destruct x eqn:?
  end.

Ltac break_hyp :=
  match goal with
  | H : context [if ?b then _ else _] |- _ => plain b; destruct b eqn:?
  | H : context [match ?x with _ => _ end] |- _ => plain x; destruct x eqn:?
  end.

Ltac inv_some :=
  match goal with
  | H : Some _ = Some _ |- _ => injection H as H; try subst
  | H : None = Some _ |- _ => discriminate H
  | H : Some _ = None |- _ => discriminate H
  end.

Ltac cases :=
  repeat (simpw; try inv_some; try break_hyp); repeat (simpw; try break_if); simpw.

(** The [catch] of [runContainer] is analysed for an arbitrary error, never
    on the closed messages of the source. *)
Ltac abstract_errors :=
  repeat match goal with
  | |- context [catchRun ?e _] => tryif is_var e then fail else (generalize e; intro)
  end.

(** ** Strings *)

Lemma strlen_app (a b : jsstring) : strlen (a ++ b) = (strlen a + strlen b)%Z.
Proof. unfold strlen. rewrite length_app. lia. Qed.

Lemma strlen_nil : strlen [] = 0%Z.
Proof. reflexivity. Qed.

Lemma strlen_nonneg (s : jsstring) : (0 <= strlen s)%Z.
Proof. unfold strlen. lia. Qed.

Lemma sliceFrom_last (s : jsstring) (n : Z) :
  (- strlen s <= n < 0)%Z ->
  strlen (sliceFrom s n) = (- n)%Z /\
  s = firstn (Z.to_nat (strlen s + n)) s ++ sliceFrom s n.
Proof.
  intros H. unfold sliceFrom, relIndex.
  destruct (Z.ltb_spec n 0); [|lia].
  replace (Z.max (strlen s + n) 0) with (strlen s + n)%Z by lia.
  split.
  - unfold strlen in *. rewrite length_skipn. lia.
  - symmetry. apply firstn_skipn.
Qed.

(** ** C1: the bound of the output buffer *)

Lemma appendOutput_bound (buf data : jsstring) :
  (strlen (appendOutput buf data) <= 10000)%Z.
Proof.
  unfold appendOutput.
  destruct (Z.ltb_spec 10000 (strlen (buf ++ data))); [|assumption].
  destruct (sliceFrom_last (buf ++ data) (-5000)) as [E _]; lia.
Qed.

Ltac buffer_cases := unfold bufferOk in *; cases; rewrite ?strlen_nil; lia.

Lemma onData_bufferOk chunk w : bufferOk w -> bufferOk (onData chunk w).
Proof.
  unfold bufferOk, onData. intros H. cases; auto using appendOutput_bound.
Qed.

Lemma resumeDestroy_bufferOk pc k o w w' :
  resumeDestroy pc k o w = Some w' -> bufferOk w -> bufferOk w'.
Proof.
  intros E H. destruct pc, o; try discriminate; cbn [resumeDestroy] in E;
    try (injection E as <-); buffer_cases.
Qed.

Lemma resumeBoot_bufferOk pc w w' :
  resumeBoot pc w = Some w' -> bufferOk w -> bufferOk w'.
Proof.
  intros E H. destruct pc as [|p| |k r c|]; cbn [resumeBoot] in E.
  4: do 7 (try destruct k as [|k]); try discriminate.
  all: try (injection E as <-); buffer_cases.
Qed.

Lemma resume_bufferOk t o w w' :
  resume t o w = Some w' -> bufferOk w -> bufferOk w'.
Proof.
  intros E H. destruct t.
  6: { cbn [resume] in E. eapply resumeDestroy_bufferOk; eassumption. }
  6: { destruct o; try discriminate. cbn [resume] in E.
       eapply resumeBoot_bufferOk; eassumption. }
  all: destruct o; try discriminate; cbn [resume] in E; injection E as <-;
    abstract_errors; buffer_cases.
Qed.

Lemma onStdin_bufferOk data cm w :
  bufferOk w -> bufferOk (snd (onStdin data (cm, w))).
Proof.
  unfold onStdin. intros H. buffer_cases.
Qed.

Lemma onStdinAll_bufferOk data ls w :
  bufferOk w -> bufferOk (snd (onStdinAll data ls w)).
Proof.
  revert w. induction ls as [|cm ls IH]; intros w H; cbn [onStdinAll snd]; auto.
  pose proof (onStdin_bufferOk data cm w H) as B.
  destruct (onStdin data (cm, w)) as [cm' w'].
  specialize (IH w' B). destruct (onStdinAll data ls w') as [ls'' w'']. exact IH.
Qed.

Lemma step_bufferOk w ev w' : step w ev = Some w' -> bufferOk w -> bufferOk w'.
Proof.
  intros E H. destruct ev; cbn [step] in E.
  - unfold runNewContainer in E. buffer_cases.
  - injection E as <-. buffer_cases.
  - injection E as <-. buffer_cases.
  - destruct (isListening s w); [|discriminate]. injection E as <-.
    now apply onData_bufferOk.
  - destruct (isListening s w); [|discriminate]. injection E as <-. buffer_cases.
  - destruct (isListening s w); [|discriminate]. injection E as <-. buffer_cases.
  - destruct (stdinFlowing w); [|discriminate]. injection E as <-. unfold stdinEvent.
    pose proof (onStdinAll_bufferOk data (stdinListeners w) w H) as B.
    destruct (onStdinAll data (stdinListeners w) w) as [ls w'']. exact B.
  - destruct (takeTask id (tasks w)) as [[t rest]|]; [|discriminate].
    eapply resume_bufferOk; [exact E|]. exact H.
Qed.

Lemma run_bufferOk evs : forall w w', run w evs = Some w' -> bufferOk w -> bufferOk w'.
Proof.
  induction evs as [|ev evs IH]; intros w w' E H; cbn [run] in E.
  - now injection E as <-.
  - destruct (step w ev) as [w1|] eqn:S; [|discriminate].
    eapply IH; [exact E|]. eapply step_bufferOk; eassumption.
Qed.

Lemma onData_buffer chunk w :
  isDockerMetadata (toString chunk) = false ->
  _buffer (onData chunk w) = appendOutput (_buffer w) (toString chunk).
Proof.
  intros M. unfold onData. rewrite M. cases; reflexivity.
Qed.

(** C1, as the claim states it, fails: with 9999 characters buffered, a chunk
    of two characters triggers the cut, and the buffer afterwards is not the
    last 5,000 characters of the old buffer followed by the chunk (that would
    be 5,002 characters; the code keeps 5,000 in all). *)
Lemma C1_truncate_then_append_counterexample :
  run session0 (spawnOk ++ [Stream_data 9 (repeat 97%N (N.to_nat 9999))]) = Some nearlyFull /\
  isDockerMetadata (toString (lit "bc")) = false /\
  (10000 < strlen (_buffer nearlyFull ++ toString (lit "bc")))%Z /\
  _buffer (onData (lit "bc") nearlyFull) <>
    sliceFrom (_buffer nearlyFull) (-5000) ++ toString (lit "bc").
Proof.
  split; [vm_compute; reflexivity|].
  split; [vm_compute; reflexivity|].
  split; [vm_compute; reflexivity|].
  assert (L : strlen (_buffer (onData (lit "bc") nearlyFull)) = 5000%Z)
    by (vm_compute; reflexivity).
  assert (R : strlen (sliceFrom (_buffer nearlyFull) (-5000) ++ toString (lit "bc")) = 5002%Z)
    by (vm_compute; reflexivity).
  intros E. rewrite E, R in L. discriminate L.
Qed.

(** C1 (amended): whatever events occur, the buffer never exceeds 10,000
    characters; a real-output chunk is appended, and when the result would
    exceed 10,000 characters the buffer becomes exactly the last 5,000
    characters of the old buffer followed by the chunk. *)
Theorem C1_output_buffer_ceiling (w : World) (evs : list Event) (w' : World) (chunk : Buffer) :
  bufferOk w ->
  run w evs = Some w' ->
  isDockerMetadata (toString chunk) = false ->
  bufferOk w' /\
  bufferOk (onData chunk w') /\
  let b := _buffer w' ++ toString chunk in
  ((strlen b <= 10000)%Z -> _buffer (onData chunk w') = b) /\
  ((10000 < strlen b)%Z ->
     _buffer (onData chunk w') = sliceFrom b (-5000) /\
     strlen (_buffer (onData chunk w')) = 5000%Z /\
     exists older, b = older ++ _buffer (onData chunk w')).
Proof.
  intros H R M.
  assert (B : bufferOk w') by (eapply run_bufferOk; eassumption).
  split; [exact B|]. split; [now apply onData_bufferOk|].
  cbv zeta. rewrite (onData_buffer chunk w' M). unfold appendOutput. split; intros L.
  - destruct (Z.ltb_spec 10000 (strlen (_buffer w' ++ toString chunk))); [lia|reflexivity].
  - destruct (Z.ltb_spec 10000 (strlen (_buffer w' ++ toString chunk))); [|lia].
    destruct (sliceFrom_last (_buffer w' ++ toString chunk) (-5000)) as [E1 E2]; [lia|].
    split; [reflexivity|]. split; [exact E1|]. eexists. exact E2.
Qed.

Lemma C1_output_buffer_ceiling_witness :
  bufferOk nearlyFull /\
  _buffer (onData (lit "bc") nearlyFull) =
    sliceFrom (_buffer nearlyFull ++ toString (lit "bc")) (-5000) /\
  strlen (_buffer (onData (lit "bc") nearlyFull)) = 5000%Z.
Proof.
  assert (H0 : bufferOk session0) by (vm_compute; discriminate).
  assert (R : run session0 (spawnOk ++ [Stream_data 9 (repeat 97%N (N.to_nat 9999))]) = Some nearlyFull)
    by (vm_compute; reflexivity).
  assert (M : isDockerMetadata (toString (lit "bc")) = false) by (vm_compute; reflexivity).
  destruct (C1_output_buffer_ceiling session0 _ nearlyFull (lit "bc") H0 R M) as (B & _ & _ & T).
  assert (L : (10000 < strlen (_buffer nearlyFull ++ toString (lit "bc")))%Z)
    by (vm_compute; reflexivity).
  destruct (T L) as (E1 & E2 & _).
  split; [exact B|]. split; [exact E1|exact E2].
Defined.

(** ** C4: runtime metadata is dropped *)

(** C4: a chunk classified as runtime metadata leaves the whole world as it
    was: the buffer is unchanged, nothing is written to the terminal and the
    latch is not fired, whatever else the chunk contains. *)
Theorem C4_metadata_chunk_dropped (w : World) (s : Stream) (chunk : Buffer) :
  isDockerMetadata (toString chunk) = true ->
  onData chunk w = w /\
  (isListening s w = true -> step w (Stream_data s chunk) = Some w).
Proof.
  intros M. assert (E : onData chunk w = w) by (unfold onData; now rewrite M).
  split; [exact E|]. intros L. cbn [step]. now rewrite L, E.
Qed.

Lemma C4_metadata_chunk_dropped_witness :
  hasPrompt (toString framedPrompt) = true /\
  onData framedPrompt attached = attached /\
  step attached (Stream_data 9 framedPrompt) = Some attached.
Proof.
  assert (M : isDockerMetadata (toString framedPrompt) = true) by (vm_compute; reflexivity).
  destruct (C4_metadata_chunk_dropped attached 9 framedPrompt M) as [E S].
  split; [vm_compute; reflexivity|]. split; [exact E|].
  apply S. vm_compute; reflexivity.
Defined.

(** ** C5: spawn on an active session *)

Lemma isReady_false (w : World) :
  container w <> None \/ ttyStream w <> None -> isReady w = false.
Proof.
  unfold isReady. destruct (container w), (ttyStream w); intros [H|H]; congruence.
Qed.

(** C5: while a container or a stream handle is held, [runNewContainer]
    throws the already-active error before it touches anything; the only
    trace of the call is the rejection handed to the caller, also when an
    image was passed. *)
Theorem C5_spawn_while_active (w : World) (image : option jsstring) :
  container w <> None \/ ttyStream w <> None ->
  runNewContainer image w = inl alreadyActive /\
  exists w',
    step w (Call_runNewContainer image) = Some w' /\
    effects w' = Settle (Rejected alreadyActive) :: effects w /\
    container w' = container w /\ ttyStream w' = ttyStream w /\
    _buffer w' = _buffer w /\ imageName w' = imageName w /\
    isFirstData w' = isFirstData w /\ shouldStop w' = shouldStop w /\
    readyPromise w' = readyPromise w /\ readyResolve w' = readyResolve w /\
    stdinListeners w' = stdinListeners w /\ listening w' = listening w /\
    tasks w' = tasks w /\ nextId w' = nextId w.
Proof.
  intros H. apply isReady_false in H.
  assert (E : runNewContainer image w = inl alreadyActive)
    by (unfold runNewContainer; now rewrite H).
  split; [exact E|]. exists (emit (Settle (Rejected alreadyActive)) w).
  cbn [step]. rewrite E. repeat split.
Qed.

Lemma C5_spawn_while_active_witness :
  runNewContainer (Some (lit "alpine")) attached = inl alreadyActive.
Proof.
  assert (H : container attached <> None \/ ttyStream attached <> None)
    by (left; vm_compute; discriminate).
  exact (proj1 (C5_spawn_while_active attached (Some (lit "alpine")) H)).
Defined.

(** ** C9: the readiness heuristic *)

Lemma rev'_rev (s : jsstring) : rev' s = rev s.
Proof. unfold rev'. symmetry. apply rev_alt. Qed.

Lemma filter_trimStart (s : jsstring) : filter notBlank (trimStart s) = filter notBlank s.
Proof.
  induction s as [|c s IH]; [reflexivity|]. cbn [trimStart].
  destruct (isTrimmed c) eqn:E; [|reflexivity].
  cbn [filter]. unfold notBlank at 2. now rewrite E.
Qed.

Lemma filter_trim (s : jsstring) : filter notBlank (trim s) = filter notBlank s.
Proof.
  unfold trim, trimEnd. rewrite !rev'_rev.
  now rewrite filter_rev, filter_trimStart, filter_rev, rev_involutive, filter_trimStart.
Qed.

Lemma nonWhitespace_le_trim (s : jsstring) : (nonWhitespace s <= strlen (trim s))%Z.
Proof.
  unfold nonWhitespace. rewrite <- filter_trim. unfold strlen.
  pose proof (filter_length_le notBlank (trim s)). lia.
Qed.

Lemma signalsReady_iff (data : jsstring) :
  isDockerMetadata data = false ->
  signalsReady data = true <->
  hasPrompt data = true \/ ((10 < strlen (trim data))%Z /\ includes data LF = true).
Proof.
  intros M. unfold signalsReady, hasOutput, hasNewline. rewrite M. cbn [negb].
  rewrite andb_true_r, orb_true_iff, andb_true_iff, Z.ltb_lt. tauto.
Qed.

Lemma onData_armed (chunk : Buffer) (w : World) (p : Promise) :
  readyResolve w = Some p ->
  isDockerMetadata (toString chunk) = false ->
  if signalsReady (toString chunk)
  then effects (onData chunk w) = Resolve p :: Stdout (Raw chunk) :: effects w /\
       readyResolve (onData chunk w) = None
  else effects (onData chunk w) = Stdout (Raw chunk) :: effects w /\
       readyResolve (onData chunk w) = Some p.
Proof.
  intros R M. unfold onData. rewrite M.
  destruct (signalsReady (toString chunk)) eqn:S; cases; split; congruence.
Qed.

(** C9, as the claim states it, fails: a line of two letters separated by
    nine blanks has only 2 non-whitespace characters and no prompt fragment,
    yet the handler fires the latch on it (its trimmed text is 11 characters
    long). *)
Lemma C9_sparse_line_counterexample :
  isDockerMetadata (toString sparseLine) = false /\
  hasPrompt (toString sparseLine) = false /\
  nonWhitespace (toString sparseLine) = 2%Z /\
  spec_signalsReady (toString sparseLine) = false /\
  readyResolve attached = Some 0 /\
  effects (onData sparseLine attached) =
    Resolve 0 :: Stdout (Raw sparseLine) :: effects attached.
Proof.
  split; [vm_compute; reflexivity|]. split; [vm_compute; reflexivity|].
  split; [vm_compute; reflexivity|]. split; [vm_compute; reflexivity|].
  split; vm_compute; reflexivity.
Qed.

(** C9 (amended): for a chunk that is not metadata, arriving while the latch
    is armed, the handler fires the latch if and only if the chunk contains
    one of the fragments "root@", "# ", "$ ", or its text with leading and
    trailing whitespace removed is longer than 10 characters and it contains
    a line feed.  Every chunk that meets the condition of the specification
    (more than 10 non-whitespace characters and a line feed, or a prompt
    fragment) fires it. *)
Theorem C9_readiness_heuristic (w : World) (p : Promise) (chunk : Buffer) :
  readyResolve w = Some p ->
  isDockerMetadata (toString chunk) = false ->
  ((effects (onData chunk w) = Resolve p :: Stdout (Raw chunk) :: effects w /\
    readyResolve (onData chunk w) = None)
   <->
   (hasPrompt (toString chunk) = true \/
    ((10 < strlen (trim (toString chunk)))%Z /\ includes (toString chunk) LF = true)))
  /\
  (spec_signalsReady (toString chunk) = true ->
   effects (onData chunk w) = Resolve p :: Stdout (Raw chunk) :: effects w).
Proof.
  intros R M. pose proof (onData_armed chunk w p R M) as A.
  pose proof (signalsReady_iff (toString chunk) M) as I.
  destruct (signalsReady (toString chunk)) eqn:S.
  - split; [split; intros _; [now apply I | exact A]|]. intros _. apply A.
  - assert (N : ~ (hasPrompt (toString chunk) = true \/
                   ((10 < strlen (trim (toString chunk)))%Z /\
                    includes (toString chunk) LF = true)))
      by (intros C; apply I in C; discriminate C).
    split.
    + split; [|tauto]. intros [E _]. destruct A as [A _]. rewrite A in E. discriminate E.
    + intros Sp. exfalso. apply N. unfold spec_signalsReady, hasNewline in Sp.
      apply orb_true_iff in Sp. destruct Sp as [Sp|Sp]; [now left|right].
      apply andb_true_iff in Sp. destruct Sp as [L NL]. apply Z.ltb_lt in L.
      pose proof (nonWhitespace_le_trim (toString chunk)). split; [lia|exact NL].
Qed.

Lemma C9_readiness_heuristic_witness :
  effects (onData sparseLine attached) =
    Resolve 0 :: Stdout (Raw sparseLine) :: effects attached /\
  readyResolve (onData sparseLine attached) = None.
Proof.
  assert (R : readyResolve attached = Some 0) by (vm_compute; reflexivity).
  assert (M : isDockerMetadata (toString sparseLine) = false) by (vm_compute; reflexivity).
  apply (proj1 (C9_readiness_heuristic attached 0 sparseLine R M)).
  right. split; vm_compute; reflexivity.
Defined.

(** ** C10: the command mode of the input router *)

Lemma isTrimmed_letter (c : char) : (65 <= c <= 122)%N -> isTrimmed c = false.
Proof.
  intros H. unfold isTrimmed, isWhiteSpace, isLineTerminator.
  repeat match goal with
         | |- context [(c =? ?k)%N] =>
             replace (c =? k)%N with false by (symmetry; apply N.eqb_neq; lia)
         end.
  replace (0x2000 <=? c)%N with false by (symmetry; apply N.leb_gt; lia).
  reflexivity.
Qed.

Lemma isTrimmed_upperChar (c : char) : isTrimmed (upperChar c) = isTrimmed c.
Proof.
  unfold upperChar.
  destruct (N.leb_spec 97 c); [|reflexivity]. destruct (N.leb_spec c 122); [|reflexivity].
  cbn [andb]. rewrite !isTrimmed_letter by lia. reflexivity.
Qed.

Lemma trimStart_upper (s : jsstring) :
  trimStart (map upperChar s) = map upperChar (trimStart s).
Proof.
  induction s as [|c s IH]; [reflexivity|].
  cbn [map trimStart]. rewrite isTrimmed_upperChar.
  destruct (isTrimmed c); [exact IH|reflexivity].
Qed.

Lemma trim_upper (s : jsstring) : map upperChar (trim s) = trim (map upperChar s).
Proof.
  unfold trim, trimEnd. rewrite !rev'_rev.
  now rewrite map_rev, <- trimStart_upper, map_rev, <- trimStart_upper.
Qed.

Lemma isAscii_trimStart (s : jsstring) :
  forallb isAscii s = true -> forallb isAscii (trimStart s) = true.
Proof.
  induction s as [|c s IH]; [reflexivity|]. intros H. cbn [trimStart].
  destruct (isTrimmed c); [|exact H].
  cbn [forallb] in H. apply andb_true_iff in H. now apply IH.
Qed.

Lemma isAscii_rev (s : jsstring) :
  forallb isAscii s = true -> forallb isAscii (rev s) = true.
Proof.
  rewrite !forallb_forall. intros H c I. apply H. now apply in_rev.
Qed.

Lemma isAscii_trim (s : jsstring) :
  forallb isAscii s = true -> forallb isAscii (trim s) = true.
Proof.
  intros H. unfold trim, trimEnd. rewrite !rev'_rev.
  now apply isAscii_rev, isAscii_trimStart, isAscii_rev, isAscii_trimStart.
Qed.

Lemma toUpperCase_ascii (unicode : jsstring -> jsstring) (s : jsstring) :
  forallb isAscii s = true -> toUpperCase unicode s = map upperChar s.
Proof. intros H. unfold toUpperCase. now rewrite H. Qed.

Lemma trim_toUpperCase (unicode : jsstring -> jsstring) (s : jsstring) :
  forallb isAscii s = true ->
  toUpperCase unicode (trim s) = trim (toUpperCase unicode s).
Proof.
  intros H. rewrite !toUpperCase_ascii by (try apply isAscii_trim; exact H).
  apply trim_upper.
Qed.

Lemma toString_ascii (c : N) : (c <= 127)%N -> toString [c] = [c].
Proof.
  intros H. unfold toString. cbn [utf8_decode utf8_start need]. unfold utf8_lead.
  destruct (N.leb_spec c 0x7F); [|lia]. cbn [app flat_map utf8_decode utf8_start need].
  unfold utf16. destruct (N.ltb_spec c 0x10000); [reflexivity|lia].
Qed.

Lemma onStdin_F12 (cm : CommandMode) (w : World) :
  onStdin F12key (cm, w) =
  ({| commandBuffer := []; isInCommandMode := true |}, stdout_write (Text commandPrompt) w).
Proof. reflexivity. Qed.

Lemma onStdin_enter (acc : jsstring) (w : World) (data : Buffer) :
  data = Enter \/ data = Newline ->
  onStdin data ({| commandBuffer := acc; isInCommandMode := true |}, w) =
  (passThrough,
   w |> stdout_write (Text LF)
     |> handleInternalCommand (toUpperCase (caseMapping w) (trim acc))).
Proof. intros [->| ->]; reflexivity. Qed.

Lemma onStdin_backspace (acc : jsstring) (w : World) :
  onStdin Backspace ({| commandBuffer := acc; isInCommandMode := true |}, w) =
  if (0 <? strlen acc)%Z
  then ({| commandBuffer := slice acc 0 (-1); isInCommandMode := true |},
        stdout_write (Text (BS ++ lit " " ++ BS)) w)
  else (passThrough, stdout_write (Text LF) w).
Proof. reflexivity. Qed.

Lemma onStdin_printable (acc : jsstring) (w : World) (c : N) :
  (32 <= c <= 126)%N ->
  onStdin [c] ({| commandBuffer := acc; isInCommandMode := true |}, w) =
  ({| commandBuffer := acc ++ [c]; isInCommandMode := true |}, stdout_write (Text [c]) w).
Proof.
  intros H. unfold onStdin. rewrite toString_ascii by lia.
  unfold firstByteIs, firstByteIn, F12. cbn [str_eqb app ESC isInCommandMode commandBuffer].
  replace (c =? 3)%N with false by (symmetry; apply N.eqb_neq; lia).
  replace (c =? 27)%N with false by (symmetry; apply N.eqb_neq; lia).
  replace (c =? 127)%N with false by (symmetry; apply N.eqb_neq; lia).
  replace (c =? 8)%N with false by (symmetry; apply N.eqb_neq; lia).
  replace (c =? 13)%N with false by (symmetry; apply N.eqb_neq; lia).
  replace (c =? 10)%N with false by (symmetry; apply N.eqb_neq; lia).
  replace (32 <=? c)%N with true by (symmetry; apply N.leb_le; lia).
  replace (c <=? 126)%N with true by (symmetry; apply N.leb_le; lia).
  reflexivity.
Qed.

(** C10, as the claim states it, fails in one place: the entry sequence
    followed at once by enter does not cancel silently; the handler shows the
    banner "Command mode cancelled." on the status line. *)
Lemma C10_cancel_not_silent_counterexample :
  snd (keys [F12key; Enter] (passThrough, attached)) <> echo [commandPrompt; LF] attached /\
  nth_error (effects (snd (keys [F12key; Enter] (passThrough, attached)))) 1 =
    Some (statusBanner (lit "Command mode cancelled.")).
Proof.
  assert (E : nth_error (effects (snd (keys [F12key; Enter] (passThrough, attached)))) 1 =
              Some (statusBanner (lit "Command mode cancelled.")))
    by (vm_compute; reflexivity).
  split; [|exact E].
  assert (N : nth_error (effects (echo [commandPrompt; LF] attached)) 1 =
              Some (Stdout (Text commandPrompt)))
    by (vm_compute; reflexivity).
  intros C. rewrite C, N in E. discriminate E.
Qed.

(** C10 (amended): from any state of the listener, the entry sequence, the
    letters S,T,A,T,U,S and enter echo the keys, show exactly the STATUS
    report with the buffer size, and return to pass-through mode; the entry
    sequence followed at once by enter cancels with the banner "Command mode
    cancelled." and returns to pass-through mode; the entry sequence, one
    printable character, backspace, backspace leaves command mode with the
    keys echoed and no command executed; and on enter the accumulated text,
    whatever it is, is handed to the command switch trimmed and then
    upper-cased by the runtime, which on ASCII text is the same as
    upper-cased and then trimmed. *)
Theorem C10_command_mode (cm : CommandMode) (w : World) (c : N) (acc : jsstring) :
  (32 <= c <= 126)%N ->
  keys [F12key; lit "S"; lit "T"; lit "A"; lit "T"; lit "U"; lit "S"; Enter] (cm, w) =
    (passThrough,
     w |> echo [commandPrompt; lit "S"; lit "T"; lit "A"; lit "T"; lit "U"; lit "S"; LF]
       |> updateStatus (statusReport w)) /\
  keys [F12key; Enter] (cm, w) =
    (passThrough,
     w |> echo [commandPrompt; LF] |> updateStatus (lit "Command mode cancelled.")) /\
  keys [F12key; [c]; Backspace; Backspace] (cm, w) =
    (passThrough, w |> echo [commandPrompt; [c]; BS ++ lit " " ++ BS; LF]) /\
  onStdin Enter ({| commandBuffer := acc; isInCommandMode := true |}, w) =
    (passThrough,
     w |> stdout_write (Text LF)
       |> handleInternalCommand (toUpperCase (caseMapping w) (trim acc))) /\
  (forallb isAscii acc = true ->
   toUpperCase (caseMapping w) (trim acc) = trim (toUpperCase (caseMapping w) acc)).
Proof.
  intros H. unfold keys. cbn [fold_left]. rewrite !onStdin_F12.
  split; [|split; [|split; [|split]]].
  - change (lit "S") with [83%N]. change (lit "T") with [84%N].
    change (lit "A") with [65%N]. change (lit "U") with [85%N].
    rewrite !onStdin_printable by lia. rewrite onStdin_enter by (now left). reflexivity.
  - rewrite onStdin_enter by (now left). reflexivity.
  - rewrite onStdin_printable by lia. rewrite onStdin_backspace.
    cbn [app strlen List.length Z.of_nat Z.ltb Z.compare Pos.of_succ_nat].
    cbn [slice]. rewrite onStdin_backspace. reflexivity.
  - apply onStdin_enter. now left.
  - apply trim_toUpperCase.
Qed.

Lemma C10_command_mode_witness :
  keys [F12key; lit "x"; Backspace; Backspace] (passThrough, attached) =
    (passThrough, attached |> echo [commandPrompt; lit "x"; BS ++ lit " " ++ BS; LF]).
Proof.
  assert (H : (32 <= 120 <= 126)%N) by lia.
  exact (proj1 (proj2 (proj2 (C10_command_mode passThrough attached 120 [] H)))).
Defined.

(** ** Lifting a relation on worlds through the event loop *)

Section EventLoop.

Variable R : World -> World -> Prop.
Variable allowed : Event -> bool.

Hypothesis R_refl : forall w, R w w.
Hypothesis R_trans : forall w1 w2 w3, R w1 w2 -> R w2 w3 -> R w1 w3.

Lemma onStdinAll_lift :
  (forall data cm w, R w (snd (onStdin data (cm, w)))) ->
  forall data ls w, R w (snd (onStdinAll data ls w)).
Proof.
  intros H data ls. induction ls as [|cm ls IH]; intros w; cbn [onStdinAll snd].
  - apply R_refl.
  - pose proof (H data cm w) as B. destruct (onStdin data (cm, w)) as [cm' w'].
    specialize (IH w'). destruct (onStdinAll data ls w') as [ls'' w''].
    cbn [snd] in *. eapply R_trans; eassumption.
Qed.

Lemma run_lift :
  (forall w ev w', allowed ev = true -> step w ev = Some w' -> R w w') ->
  forall evs w w', forallb allowed evs = true -> run w evs = Some w' -> R w w'.
Proof.
  intros H evs. induction evs as [|ev evs IH]; intros w w' A E; cbn [run] in E.
  - injection E as <-. apply R_refl.
  - cbn [forallb] in A. apply andb_true_iff in A. destruct A as [A1 A2].
    destruct (step w ev) as [w1|] eqn:S; [|discriminate].
    eapply R_trans; [eapply H; eassumption|]. now apply IH.
Qed.

End EventLoop.

Definition anyEvent (ev : Event) : bool := true.

Lemma forallb_anyEvent (evs : list Event) : forallb anyEvent evs = true.
Proof. induction evs; [reflexivity|assumption]. Qed.

(** ** C3: the latch fires at most once between two resets *)

Ltac latch_solve :=
  unfold LatchStep, resets, fires, countEffects; cases;
  cbn [filter isResetEffect isResolveEffect List.length];
  (split; [lia | intros ?;
     first [ exfalso; lia
           | left; split; [congruence | lia]
           | right; split; [|split]; [congruence | congruence | lia] ]]).

Lemma LatchStep_refl w : LatchStep w w.
Proof. unfold LatchStep. split; [lia|]. intros _. left. now split. Qed.

Lemma LatchStep_trans w1 w2 w3 : LatchStep w1 w2 -> LatchStep w2 w3 -> LatchStep w1 w3.
Proof.
  unfold LatchStep. intros [M1 H1] [M2 H2]. split; [lia|]. intros E.
  destruct H1 as [[R1 F1]|(A1 & R1 & F1)]; [lia| |];
    (destruct H2 as [[R2 F2]|(A2 & R2 & F2)]; [lia| |]).
  - left. split; congruence.
  - right. repeat split; congruence.
  - right. repeat split; congruence.
  - congruence.
Qed.

Lemma onData_latch chunk w : LatchStep w (onData chunk w).
Proof. unfold onData. latch_solve. Qed.

Lemma onEnd_latch w : LatchStep w (onEnd w).
Proof. latch_solve. Qed.

Lemma onError_latch e w : LatchStep w (onError e w).
Proof. latch_solve. Qed.

Lemma stop_latch w : LatchStep w (stop w).
Proof. latch_solve. Qed.

Lemma sendInput_latch c w : LatchStep w (sendInput c w).
Proof. latch_solve. Qed.

Lemma onStdin_latch data cm w : LatchStep w (snd (onStdin data (cm, w))).
Proof. unfold onStdin. latch_solve. Qed.

Lemma resumeDestroy_latch pc k o w w' :
  resumeDestroy pc k o w = Some w' -> LatchStep w w'.
Proof.
  intros E. destruct pc, o; try discriminate; cbn [resumeDestroy] in E;
    try (injection E as <-); latch_solve.
Qed.

Lemma resumeBoot_latch pc w w' :
  resumeBoot pc w = Some w' -> LatchStep w w'.
Proof.
  intros E. destruct pc as [|p| |k r c|]; cbn [resumeBoot] in E.
  4: do 7 (try destruct k as [|k]); try discriminate.
  all: try (injection E as <-); latch_solve.
Qed.

Lemma resume_latch t o w w' :
  resume t o w = Some w' -> LatchStep w w'.
Proof.
  intros E. destruct t.
  6: { cbn [resume] in E. eapply resumeDestroy_latch; eassumption. }
  6: { destruct o; try discriminate. cbn [resume] in E.
       eapply resumeBoot_latch; eassumption. }
  all: destruct o; try discriminate; cbn [resume] in E; injection E as <-;
    abstract_errors; latch_solve.
Qed.

Lemma step_latch w ev w' : anyEvent ev = true -> step w ev = Some w' -> LatchStep w w'.
Proof.
  intros _ E. destruct ev; cbn [step] in E.
  - unfold runNewContainer in E. latch_solve.
  - injection E as <-. apply stop_latch.
  - injection E as <-. apply sendInput_latch.
  - destruct (isListening s w); [|discriminate]. injection E as <-. apply onData_latch.
  - destruct (isListening s w); [|discriminate]. injection E as <-. apply onEnd_latch.
  - destruct (isListening s w); [|discriminate]. injection E as <-. apply onError_latch.
  - destruct (stdinFlowing w); [|discriminate]. injection E as <-. unfold stdinEvent.
    pose proof (onStdinAll_lift LatchStep LatchStep_refl LatchStep_trans onStdin_latch
                  data (stdinListeners w) w) as B.
    destruct (onStdinAll data (stdinListeners w) w) as [ls w'']. cbn [snd] in B.
    eapply LatchStep_trans; [exact B|]. latch_solve.
  - destruct (takeTask id (tasks w)) as [[t rest]|]; [|discriminate].
    eapply LatchStep_trans; [|eapply resume_latch; exact E]. latch_solve.
Qed.

(** C3: over any events, stream chunks and timer expiries in any order,
    during which no reset to idle occurs, the latch is fired at most once;
    once it is spent nothing fires it again, and a fire leaves it spent. *)
Theorem C3_latch_fires_at_most_once (w : World) (evs : list Event) (w' : World) :
  run w evs = Some w' ->
  resets w' = resets w ->
  fires w' <= fires w + 1 /\
  (readyResolve w = None -> fires w' = fires w) /\
  (fires w' = fires w + 1 -> readyResolve w' = None).
Proof.
  intros E N.
  destruct (run_lift LatchStep anyEvent LatchStep_refl LatchStep_trans step_latch
              evs w w' (forallb_anyEvent evs) E) as [_ H].
  destruct (H N) as [[A B]|(A & B & C)].
  - split; [lia|]. split; [intros _; exact B|]. intros F. lia.
  - split; [lia|]. split; [intros Z; contradiction|]. intros _. exact B.
Qed.

Lemma C3_latch_fires_at_most_once_witness :
  fires (orElse (run attached twoPromptsAndFallback) attached) <= fires attached + 1.
Proof.
  assert (E : run attached twoPromptsAndFallback =
              Some (orElse (run attached twoPromptsAndFallback) attached))
    by (vm_compute; reflexivity).
  assert (N : resets (orElse (run attached twoPromptsAndFallback) attached) = resets attached)
    by (vm_compute; reflexivity).
  exact (proj1 (C3_latch_fires_at_most_once attached twoPromptsAndFallback _ E N)).
Defined.

(** ** The detached task and the fallback timer *)

Ltac waiting_solve :=
  unfold StaysWaiting, Waiting, fires, countEffects; cases;
  cbn [filter isResolveEffect List.length forallb beforeReady pastReady snd negb andb] in *;
  intros (? & ? & ?); (split; [|split]); first [assumption | congruence | lia].

Lemma fires_0_resolved p w : fires w = 0 -> resolved p w = false.
Proof.
  unfold fires, countEffects, resolved. induction (effects w) as [|e l IH]; [reflexivity|].
  cbn [filter existsb]. destruct e; cbn [isResolveEffect isResolve List.length orb]; auto.
  discriminate.
Qed.

Lemma takeTask_forallb (P : nat * Task -> bool) id ts t rest :
  takeTask id ts = Some (t, rest) ->
  forallb P ts = true -> P (id, t) = true /\ forallb P rest = true.
Proof.
  revert rest. induction ts as [|[i u] ts IH]; intros rest E F; [discriminate|].
  cbn [takeTask] in E. cbn [forallb] in F. apply andb_true_iff in F. destruct F as [F1 F2].
  destruct (Nat.eqb_spec i id).
  - injection E as <- <-. subst i. auto.
  - destruct (takeTask id ts) as [[t' rest']|]; [|discriminate].
    injection E as <- <-. destruct (IH rest' eq_refl F2) as (A & B).
    split; [exact A|]. cbn [forallb]. now rewrite F1, B.
Qed.

Lemma onData_waiting s chunk w :
  silent (Stream_data s chunk) = true -> StaysWaiting w (onData chunk w).
Proof.
  cbn [silent]. intros S. unfold onData.
  destruct (isDockerMetadata (toString chunk)); [now intros ?|].
  cbn [orb] in S. apply negb_true_iff in S. rewrite S. waiting_solve.
Qed.

Lemma onEnd_waiting w : StaysWaiting w (onEnd w).
Proof. waiting_solve. Qed.
Lemma onError_waiting e w : StaysWaiting w (onError e w).
Proof. waiting_solve. Qed.
Lemma stop_waiting w : StaysWaiting w (stop w).
Proof. waiting_solve. Qed.
Lemma sendInput_waiting c w : StaysWaiting w (sendInput c w).
Proof. waiting_solve. Qed.
Lemma onStdin_waiting data cm w : StaysWaiting w (snd (onStdin data (cm, w))).
Proof. unfold onStdin. waiting_solve. Qed.
Lemma resumeDestroy_waiting pc k o w w' :
  resumeDestroy pc k o w = Some w' -> StaysWaiting w w'.
Proof.
  intros E. destruct pc, o; try discriminate; cbn [resumeDestroy] in E;
    try (injection E as <-); waiting_solve.
Qed.
Lemma resumeBoot_waiting pc w w' :
  pastReady (Boot pc) = false ->
  resumeBoot pc w = Some w' -> StaysWaiting w w'.
Proof.
  intros P E. destruct pc as [|p| |k r c|]; try discriminate P; cbn [resumeBoot] in E.
  - injection E as <-. waiting_solve.
  - intros W. destruct W as (F & _). rewrite (fires_0_resolved p w F) in E. discriminate E.
Qed.
Lemma resume_waiting t o w w' :
  pastReady t = false ->
  resume t o w = Some w' -> StaysWaiting w w'.
Proof.
  intros P E. destruct t.
  6: { cbn [resume] in E. eapply resumeDestroy_waiting; eassumption. }
  6: { destruct o; try discriminate. cbn [resume] in E.
       eapply resumeBoot_waiting; eassumption. }
  all: destruct o; try discriminate; cbn [resume] in E; injection E as <-;
    abstract_errors; waiting_solve.
Qed.

Lemma StaysWaiting_refl w : StaysWaiting w w.
Proof. now intros ?. Qed.

Lemma StaysWaiting_trans w1 w2 w3 :
  StaysWaiting w1 w2 -> StaysWaiting w2 w3 -> StaysWaiting w1 w3.
Proof. unfold StaysWaiting. auto. Qed.

Lemma step_waiting w ev w' : silent ev = true -> step w ev = Some w' -> StaysWaiting w w'.
Proof.
  intros S E. destruct ev; cbn [step] in E.
  - unfold runNewContainer in E. waiting_solve.
  - injection E as <-. apply stop_waiting.
  - injection E as <-. apply sendInput_waiting.
  - destruct (isListening s w); [|discriminate]. injection E as <-.
    eapply onData_waiting. exact S.
  - destruct (isListening s w); [|discriminate]. injection E as <-. apply onEnd_waiting.
  - destruct (isListening s w); [|discriminate]. injection E as <-. apply onError_waiting.
  - destruct (stdinFlowing w); [|discriminate]. injection E as <-. unfold stdinEvent.
    pose proof (onStdinAll_lift StaysWaiting StaysWaiting_refl StaysWaiting_trans
                  onStdin_waiting data (stdinListeners w) w) as B.
    destruct (onStdinAll data (stdinListeners w) w) as [ls w'']. cbn [snd] in B.
    eapply StaysWaiting_trans; [exact B|]. waiting_solve.
  - destruct (takeTask id (tasks w)) as [[t rest]|] eqn:T; [|discriminate].
    intros W. assert (W0 := W). destruct W0 as (F & A & B).
    destruct (takeTask_forallb beforeReady id (tasks w) t rest T B) as [Pt Pr].
    unfold beforeReady in Pt. cbn [snd] in Pt. apply negb_true_iff in Pt.
    refine (resume_waiting t o (set_tasks rest w) w' Pt E _).
    unfold Waiting, fires, countEffects in *. cbn [effects readyResolve tasks set_tasks].
    auto.
Qed.

(** X1: the fallback that fires the latch lies behind [await this.ready()]
    in the detached task, so it cannot help a session whose shell stays
    silent.  Take a state in which no latch has been fired yet, the latch is
    armed, and no detached task is past its wait for readiness (the state
    of a fresh executor, and of its first session as long as no chunk
    signals readiness).  Over any events among which no stream chunk
    signals readiness (timers, keystrokes, stop, stream end and error,
    further spawns), still no latch has been fired, the latch is armed, no
    promise behind [ready()] is resolved, and a detached task that waits on
    one cannot be resumed.  (Once a latch has fired, a later session is not
    covered: the fallback timer of an earlier session can fire its latch.) *)
Theorem X1_silent_shell_never_ready (w : World) (evs : list Event) (w' : World) :
  Waiting w ->
  forallb silent evs = true ->
  run w evs = Some w' ->
  fires w' = 0 /\
  readyResolve w' <> None /\
  (forall p, resolved p w' = false) /\
  (forall id p rest o,
     takeTask id (tasks w') = Some (Boot (B_ready p), rest) ->
     step w' (Resume id o) = None).
Proof.
  intros W S E.
  destruct (run_lift StaysWaiting silent StaysWaiting_refl StaysWaiting_trans step_waiting
              evs w w' S E W) as (F & A & B).
  split; [exact F|]. split; [exact A|]. split.
  - intros p. now apply fires_0_resolved.
  - intros id p rest o T. cbn [step]. rewrite T.
    destruct o; cbn [resume]; try reflexivity. cbn [resumeBoot].
    unfold resolved. cbn [effects set_tasks].
    change (existsb (isResolve p) (effects w')) with (resolved p w').
    now rewrite (fires_0_resolved p w' F).
Qed.

Lemma X1_silent_shell_never_ready_witness :
  fires (orElse (run session0 silentSession) session0) = 0 /\
  step (orElse (run session0 silentSession) session0) (Resume 7 Done) = None.
Proof.
  assert (W : Waiting session0) by (split; [reflexivity|split; [discriminate|reflexivity]]).
  assert (S : forallb silent silentSession = true) by (vm_compute; reflexivity).
  assert (E : run session0 silentSession = Some (orElse (run session0 silentSession) session0))
    by (vm_compute; reflexivity).
  destruct (X1_silent_shell_never_ready session0 silentSession _ W S E) as (F & _ & _ & B).
  split; [exact F|].
  apply (B 7 0 [(8, StatusTimer)]). vm_compute. reflexivity.
Defined.

(** ** Failures inside a spawn, and [destroyContainer] *)

Ltac count_solve :=
  unfold resets, destroys, fires, countEffects, dockerCalls; cases;
  cbn [filter flat_map dockerCall app isResetEffect isDestroyEffect isResolveEffect isRejection
       List.length hd_error];
  repeat split; first [reflexivity | congruence | lia].

Lemma catchRun_caught (e : Error) (w : World) : Caught w (catchRun e w).
Proof. unfold Caught. count_solve. Qed.

Lemma catchRun_caught_cleared (e : Error) (w : World) : Caught w (catchRun e (clearStatus w)).
Proof. exact (catchRun_caught e (clearStatus w)). Qed.

(** X2: a failure of any awaited step of a spawn (probe, pull, create, start,
    attach) is caught by [runContainer]: nothing is rejected to the caller;
    when no container handle is held the session is reset at once (both
    handles null, empty buffer, a newly armed latch, terminal out of raw
    mode, stdin paused) and the promise of the spawn is fulfilled; when a
    handle is held [destroyContainer] is entered once, starting with the
    connectivity probe, and the reset waits for it. *)
Theorem X2_spawn_failure_is_caught (t : Task) (e : Error) (w : World) :
  isSpawnTask t = true ->
  exists w', resume t (Failed e) w = Some w' /\ Caught w w'.
Proof.
  intros S. destruct t; try discriminate S; eexists; (split; [reflexivity|]);
    first [apply catchRun_caught | apply catchRun_caught_cleared].
Qed.

Lemma X2_spawn_failure_is_caught_witness :
  exists w',
    resume Running_start (Failed (mkError (lit "no such image"))) starting = Some w' /\
    destroys w' = 1 /\ resets w' = 0.
Proof.
  destruct (X2_spawn_failure_is_caught Running_start (mkError (lit "no such image"))
              starting eq_refl) as (w' & E & _ & _ & _ & M).
  exists w'. split; [exact E|].
  assert (C : container starting = Some 7) by (vm_compute; reflexivity).
  rewrite C in M. destruct M as (_ & _ & R & D & _).
  split; [rewrite D | rewrite R]; vm_compute; reflexivity.
Defined.

Ltac teardown_solve :=
  unfold Teardown, resets, destroys, countEffects in *; cases;
  cbn [filter isResetEffect isDestroyEffect List.length hd_error];
  (split; [reflexivity|]);
  first [ left; eexists; (split; [reflexivity|]); cbn [destroyRank];
          repeat split; first [reflexivity | congruence | lia]
        | right; repeat split; first [reflexivity | congruence | lia] ].

Lemma finish_teardown pc k w : Teardown pc k w (finish k (clearStatus w)).
Proof. teardown_solve. Qed.

Lemma removePhase_teardown pc k w :
  2 < destroyRank pc -> Teardown pc k w (removePhase k w).
Proof. intros L. teardown_solve. Qed.

Lemma stopPhase_teardown pc k w :
  3 < destroyRank pc -> Teardown pc k w (stopPhase k w).
Proof. intros L. teardown_solve. Qed.

Lemma cleanupFailed_teardown pc k e w :
  1 < destroyRank pc -> Teardown pc k w (cleanupFailed e k w).
Proof. intros L. teardown_solve. Qed.

Lemma wait_teardown pc pc' k m w :
  destroyRank pc' < destroyRank pc ->
  Teardown pc k w (suspend (Destroying pc' k) (updateStatus m w)).
Proof.
  intros L. unfold Teardown, resets, destroys, countEffects. simpw.
  cbn [filter isResetEffect isDestroyEffect List.length].
  split; [reflexivity|]. left. exists pc'. repeat split. exact L.
Qed.

Lemma resumeDestroy_teardown (pc : DestroyPC) (k : After) (o : Outcome) (w w' : World) :
  resumeDestroy pc k o w = Some w' -> Teardown pc k w w'.
Proof.
  intros E. destruct pc, o; try discriminate; cbn [resumeDestroy] in E.
  - injection E as <-. apply stopPhase_teardown. cbn. lia.
  - injection E as <-. apply wait_teardown. cbn. lia.
  - injection E as <-. apply finish_teardown.
  - injection E as <-. apply removePhase_teardown. cbn. lia.
  - assert (E' : Some (removePhase k w) = Some w' \/
                 Some (w |> updateStatus (lit "Docker connection lost - container cleanup skipped")
                         |> suspend (Destroying D_return k)) = Some w' \/
                 Some (cleanupFailed e k w) = Some w').
    { revert E. repeat break_if; auto. }
    clear E. destruct E' as [E|[E|E]]; injection E as <-;
      [apply removePhase_teardown | apply wait_teardown | apply cleanupFailed_teardown];
      cbn; lia.
  - injection E as <-. apply wait_teardown. cbn. lia.
  - injection E as <-. apply cleanupFailed_teardown. cbn. lia.
  - injection E as <-. apply finish_teardown.
Qed.

(** X3: a running [destroyContainer] always comes to its end, and its caller
    then resets the session.  Whatever the runtime answers, a resumption
    either moves it to a later suspension point (at most four lie on any
    path) with the handles untouched, or finishes it: the session is then
    idle (both handles null) with an empty buffer and a newly armed latch,
    and a spawn that was being cleaned up is fulfilled.  It never calls
    itself again. *)
Theorem X3_destroyContainer_completes (pc : DestroyPC) (k : After) (o : Outcome) (w : World) :
  resumeDestroy pc k Done w <> None /\
  forall w', resumeDestroy pc k o w = Some w' -> Teardown pc k w w'.
Proof.
  split; [destruct pc; discriminate|]. intros w'. apply resumeDestroy_teardown.
Qed.

Lemma X3_destroyContainer_completes_witness :
  exists w', resumeDestroy D_final AfterCatch Done starting = Some w' /\ container w' = None.
Proof.
  destruct (X3_destroyContainer_completes D_final AfterCatch Done starting) as [_ H].
  eexists. split; [reflexivity|].
  destruct (H _ eq_refl) as [_ [(pc' & _ & L & _)|(_ & R & _)]]; [|exact R].
  destruct pc'; cbn [destroyRank] in L; lia.
Defined.

Ltac docker_solve :=
  unfold dockerCalls; cases; cbn [flat_map dockerCall app];
  repeat split; first [reflexivity | congruence].

(** X4: the runtime's answers inside [destroyContainer], for a held
    container.  The stop call is made only once the probe has succeeded; an
    unreachable runtime ends the teardown with neither stop nor remove.  A
    stop answered 304 (already stopped) continues exactly as a successful
    stop, with the remove call; any other failure of stop ends the teardown
    without a remove call.  A remove answered 409 (removal in progress) that
    is no lost connection is passed over with no log and no status. *)
Theorem X4_destroy_runtime_answers (k : After) (e : Error) (w : World) (c : Container) :
  container w = Some c ->
  (exists w', resumeDestroy D_ping k Done w = Some w' /\
              dockerCalls w' = Stop c :: dockerCalls w) /\
  (exists w', resumeDestroy D_ping k (Failed e) w = Some w' /\
              dockerCalls w' = dockerCalls w /\
              tasks w' = (nextId w, Destroying D_return k) :: tasks w) /\
  (exists w', resumeDestroy D_stop k Done w = Some w' /\
              dockerCalls w' = Remove c :: dockerCalls w) /\
  (statusCode e = Some 304%Z ->
   resumeDestroy D_stop k (Failed e) w = resumeDestroy D_stop k Done w) /\
  (statusCode e <> Some 304%Z ->
   exists w', resumeDestroy D_stop k (Failed e) w = Some w' /\
              dockerCalls w' = dockerCalls w) /\
  (lostConnection e = false -> statusCode e = Some 409%Z ->
   resumeDestroy D_remove k (Failed e) w = Some (suspend (Destroying D_final k) w)).
Proof.
  intros C. cbn [resumeDestroy]. repeat apply conj.
  - eexists. split; [reflexivity|]. unfold stopPhase. rewrite C. docker_solve.
  - eexists. split; [reflexivity|]. docker_solve.
  - eexists. split; [reflexivity|]. unfold removePhase. rewrite C. docker_solve.
  - intros S. rewrite S. reflexivity.
  - intros S.
    assert (E : match statusCode e with
                | Some 304%Z => Some (removePhase k w)
                | _ => if lostConnection e
                       then Some (w |> updateStatus (lit "Docker connection lost - container cleanup skipped")
                                    |> suspend (Destroying D_return k))
                       else Some (cleanupFailed e k w)
                end =
                if lostConnection e
                then Some (w |> updateStatus (lit "Docker connection lost - container cleanup skipped")
                             |> suspend (Destroying D_return k))
                else Some (cleanupFailed e k w)).
    { repeat break_if; try reflexivity; congruence. }
    rewrite E. destruct (lostConnection e) eqn:L; eexists; (split; [reflexivity|]).
    + docker_solve.
    + unfold cleanupFailed, reportCleanupFailure. rewrite L. docker_solve.
  - intros L S. unfold cleanupFailed, reportCleanupFailure. rewrite L, S. reflexivity.
Qed.

Lemma X4_destroy_runtime_answers_witness :
  resumeDestroy D_stop AfterEnd (Failed {| message := lit "not modified"; statusCode := Some 304%Z |})
    attached =
  resumeDestroy D_stop AfterEnd Done attached.
Proof.
  assert (C : container attached = Some 7) by (vm_compute; reflexivity).
  destruct (X4_destroy_runtime_answers AfterEnd
              {| message := lit "not modified"; statusCode := Some 304%Z |} attached 7 C)
    as (_ & _ & _ & H & _).
  exact (H eq_refl).
Defined.

(** ** Who tears the session down, and how often *)

Ltac account_solve :=
  unfold Account, noSpawn, resetsDue, pendingTeardowns, resets, destroys, countEffects in *;
  cases;
  cbn [filter forallb isDestroying notSpawning isSpawnTask negb andb snd
       isResetEffect isDestroyEffect List.length] in *;
  intros ?; repeat split; first [assumption | lia].

Lemma takeTask_count (P : nat * Task -> bool) id ts t rest :
  takeTask id ts = Some (t, rest) ->
  List.length (filter P ts) =
  (if P (id, t) then 1 else 0) + List.length (filter P rest).
Proof.
  revert rest. induction ts as [|[i u] ts IH]; intros rest E; [discriminate|].
  cbn [takeTask] in E. destruct (Nat.eqb_spec i id).
  - injection E as <- <-. subst i. cbn [filter]. destruct (P (id, u)); cbn [List.length]; lia.
  - destruct (takeTask id ts) as [[t' rest']|]; [|discriminate].
    injection E as <- <-. specialize (IH rest' eq_refl). cbn [filter].
    destruct (P (i, u)); cbn [List.length]; lia.
Qed.

Lemma stop_account w : Account 0 w (stop w).
Proof. account_solve. Qed.

Lemma sendInput_account c w : Account 0 w (sendInput c w).
Proof. account_solve. Qed.

Lemma onData_account chunk w : Account 0 w (onData chunk w).
Proof. unfold onData. account_solve. Qed.

Lemma onEnd_account w : Account 1 w (onEnd w).
Proof. account_solve. Qed.

Lemma onError_account e w : Account 1 w (onError e w).
Proof. account_solve. Qed.

Lemma resumeBoot_account pc w w' : resumeBoot pc w = Some w' -> Account 0 w w'.
Proof.
  intros E. destruct pc as [|p| |k r c|]; cbn [resumeBoot] in E.
  4: do 7 (try destruct k as [|k]); try discriminate.
  all: try (injection E as <-); account_solve.
Qed.

Lemma taken_account id t rest w :
  takeTask id (tasks w) = Some (t, rest) ->
  isDestroying (id, t) = false ->
  Account 0 w (set_tasks rest w).
Proof.
  intros T D N. unfold noSpawn in *.
  destruct (takeTask_forallb notSpawning id (tasks w) t rest T N) as [_ Nr].
  pose proof (takeTask_count isDestroying id (tasks w) t rest T) as C. rewrite D in C.
  unfold resetsDue, pendingTeardowns, resets, destroys, countEffects.
  cbn [tasks effects set_tasks]. repeat split; first [assumption | lia].
Qed.

Lemma Account_trans n m w1 w2 w3 :
  Account n w1 w2 -> Account m w2 w3 -> Account (n + m) w1 w3.
Proof.
  unfold Account. intros H1 H2 N. destruct (H1 N) as (N2 & R1 & D1 & S1).
  destruct (H2 N2) as (N3 & R2 & D2 & S2). repeat split; first [assumption | lia].
Qed.

Lemma resume_account id t rest o w w' :
  takeTask id (tasks w) = Some (t, rest) ->
  resume t o (set_tasks rest w) = Some w' ->
  Account 0 w w'.
Proof.
  intros T E N. assert (N0 := N). unfold noSpawn in N0.
  destruct (takeTask_forallb notSpawning id (tasks w) t rest T N0) as [Nt Nr].
  unfold notSpawning in Nt. cbn [snd] in Nt. apply negb_true_iff in Nt.
  destruct t; try discriminate Nt; cbn [resume] in E.
  - (* a running destroyContainer *)
    pose proof (takeTask_count isDestroying id (tasks w) _ rest T) as C.
    cbn [isDestroying snd] in C.
    destruct (resumeDestroy_teardown pc k o (set_tasks rest w) w' E) as [D H].
    unfold noSpawn, resetsDue, pendingTeardowns, resets, destroys, countEffects in *.
    cbn [tasks effects set_tasks nextId container ttyStream] in *.
    destruct H as [(pc' & Tk & _ & R & _)|(Tk & _ & _ & _ & R & _)]; rewrite Tk;
      cbn [filter forallb isDestroying notSpawning isSpawnTask negb andb snd List.length];
      repeat split; first [assumption | lia].
  - (* the detached task *)
    destruct o; try discriminate.
    replace 0 with (0 + 0) by reflexivity.
    refine (Account_trans 0 0 w (set_tasks rest w) w' _ _ N).
    + eapply taken_account; [exact T|reflexivity].
    + eapply resumeBoot_account. exact E.
  - (* the status timer of stop *)
    destruct o; try discriminate. injection E as <-.
    replace 0 with (0 + 0) by reflexivity.
    refine (Account_trans 0 0 w (set_tasks rest w) _ _ _ N).
    + eapply taken_account; [exact T|reflexivity].
    + account_solve.
Qed.

Lemma step_account w ev w' :
  sessionEvent ev = true ->
  step w ev = Some w' ->
  Account (if startsTeardown ev then 1 else 0) w w'.
Proof.
  intros S E. destruct ev; try discriminate S; cbn [step] in E; cbn [startsTeardown].
  - injection E as <-. apply stop_account.
  - injection E as <-. apply sendInput_account.
  - destruct (isListening s w); [|discriminate]. injection E as <-. apply onData_account.
  - destruct (isListening s w); [|discriminate]. injection E as <-. apply onEnd_account.
  - destruct (isListening s w); [|discriminate]. injection E as <-. apply onError_account.
  - destruct (takeTask id (tasks w)) as [[t rest]|] eqn:T; [|discriminate].
    eapply resume_account; eassumption.
Qed.

Lemma run_account evs : forall w w',
  forallb sessionEvent evs = true ->
  run w evs = Some w' ->
  Account (teardownsStarted evs) w w'.
Proof.
  induction evs as [|ev evs IH]; intros w w' A E; cbn [run] in E.
  - injection E as <-. intros N. unfold teardownsStarted. cbn.
    repeat split; first [assumption | lia].
  - cbn [forallb] in A. apply andb_true_iff in A. destruct A as [A1 A2].
    destruct (step w ev) as [w1|] eqn:St; [|discriminate].
    pose proof (step_account w ev w1 A1 St) as H1. specialize (IH w1 w' A2 E).
    unfold teardownsStarted in *. cbn [filter].
    destruct (startsTeardown ev); cbn [List.length].
    + exact (Account_trans 1 _ w w1 w' H1 IH).
    + exact (Account_trans 0 _ w w1 w' H1 IH).
Qed.

Lemma onEnd_then_onError (e : Error) (w : World) :
  container w <> None -> destroys (onError e (onEnd w)) = destroys w + 2.
Proof.
  intros C. unfold destroys, countEffects. cases; try congruence;
    cbn [filter isDestroyEffect List.length]; lia.
Qed.

(** X5: [stop] itself neither destroys the container nor resets the
    session: with no spawn in flight, over any calls of [stop] and
    [sendInput], stream chunks, timer expiries and answers of the runtime,
    the number of resets made or owed by a running teardown grows by exactly
    one for every end event and every error event of the stream that is
    handled, and [destroyContainer] is called at most once for each.  So
    [stop] called twice and one end event give one call and one reset; but
    the handlers do not exclude one another: an error event that arrives
    while the teardown started by the end event is suspended calls
    [destroyContainer] a second time. *)
Theorem X5_teardown_accounting (w : World) (evs : list Event) (w' : World) (e : Error) :
  noSpawn w ->
  forallb sessionEvent evs = true ->
  run w evs = Some w' ->
  resetsDue w' = resetsDue w + teardownsStarted evs /\
  destroys w <= destroys w' <= destroys w + teardownsStarted evs /\
  (pendingTeardowns w' = 0 -> pendingTeardowns w = 0 ->
   resets w' = resets w + teardownsStarted evs) /\
  destroys (stop w) = destroys w /\ resets (stop w) = resets w /\
  dockerCalls (stop w) = dockerCalls w /\
  (container w <> None -> destroys (onError e (onEnd w)) = destroys w + 2).
Proof.
  intros N A E.
  destruct (run_account evs w w' A E N) as (_ & R & D & _).
  split; [exact R|]. split; [exact D|]. split.
  { unfold resetsDue in R. intros P' P. lia. }
  split; [|split; [|split]].
  - unfold destroys, countEffects. cases; reflexivity.
  - unfold resets, countEffects. cases; reflexivity.
  - unfold dockerCalls. cases; reflexivity.
  - apply onEnd_then_onError.
Qed.

Lemma X5_teardown_accounting_witness :
  resets (orElse (run attached stopStopEnd) attached) = 1 /\
  destroys (orElse (run attached stopStopEnd) attached) = 1.
Proof.
  assert (N : noSpawn attached) by (vm_compute; reflexivity).
  assert (A : forallb sessionEvent stopStopEnd = true) by (vm_compute; reflexivity).
  assert (E : run attached stopStopEnd = Some (orElse (run attached stopStopEnd) attached))
    by (vm_compute; reflexivity).
  destruct (X5_teardown_accounting attached stopStopEnd _ (mkError []) N A E)
    as (_ & D & R & _).
  assert (T : teardownsStarted stopStopEnd = 1) by (vm_compute; reflexivity).
  assert (P0 : pendingTeardowns attached = 0) by (vm_compute; reflexivity).
  assert (P1 : pendingTeardowns (orElse (run attached stopStopEnd) attached) = 0)
    by (vm_compute; reflexivity).
  assert (R0 : resets attached = 0) by (vm_compute; reflexivity).
  assert (D0 : destroys attached = 0) by (vm_compute; reflexivity).
  assert (D1 : 1 <= destroys (orElse (run attached stopStopEnd) attached))
    by (vm_compute; lia).
  specialize (R P1 P0). rewrite T, R0 in R. rewrite T, D0 in D. split; [exact R|lia].
Defined.

(** ** A spawn that succeeds *)

Lemma resumeLast_head id t ts o w :
  tasks w = (id, t) :: ts -> resumeLast o w = resume t o (set_tasks ts w).
Proof.
  intros T. unfold resumeLast. rewrite T. cbn [step]. rewrite T. cbn [takeTask].
  now rewrite Nat.eqb_refl.
Qed.

Lemma runNewContainer_idle image w :
  isReady w = true ->
  runNewContainer image w =
  inr (runContainer (set_imageName (effectiveImage image w) w)) /\
  runContainer (set_imageName (effectiveImage image w) w) =
  runContainer match image with Some (c :: i) => set_imageName (c :: i) w | _ => w end.
Proof.
  intros R. unfold runNewContainer. rewrite R. cbn [negb].
  assert (E : runContainer (set_imageName (effectiveImage image w) w) =
              runContainer match image with Some (c :: i) => set_imageName (c :: i) w | _ => w end).
  { destruct image as [[|c i]|]; cbn [effectiveImage]; try reflexivity;
      destruct w; reflexivity. }
  split; [now rewrite E|exact E].
Qed.

(** X6: from an idle session, when every awaited step succeeds, a spawn
    probes the runtime, pulls and creates with the image passed as override
    if it is a non-empty string and with the stored image otherwise, then
    starts and attaches, in this order.  It ends holding both handles, with
    stdin in raw mode and flowing, one more stdin listener registered, the
    stream's handlers listening, the detached task in its first wait and its
    promise fulfilled; the buffer and the latch are as they were, and
    nothing was destroyed or reset. *)
Theorem X6_spawn_success (w : World) (image : option jsstring) (c : Container) (s : Stream) :
  isReady w = true ->
  exists w1 w',
    runNewContainer image w = inr w1 /\
    answers [Done; Done; Created c; Done; Attached s] w1 = Some w' /\
    container w' = Some c /\ ttyStream w' = Some s /\
    imageName w' = effectiveImage image w /\
    dockerCalls w' =
      [Attach c; Start c; Create (effectiveImage image w); Pull (effectiveImage image w); Ping]
      ++ dockerCalls w /\
    listening w' = s :: listening w /\
    stdinListeners w' = stdinListeners w ++ [passThrough] /\
    isRaw w' = true /\ stdinFlowing w' = true /\
    tasks w' = (nextId w + 5, Boot B_delay1000) :: tasks w /\
    hd_error (effects w') = Some (Settle Fulfilled) /\
    _buffer w' = _buffer w /\ readyResolve w' = readyResolve w /\
    resets w' = resets w /\ destroys w' = destroys w.
Proof.
  intros R. destruct (runNewContainer_idle image w R) as [E _].
  revert E. generalize (effectiveImage image w) as img. intros img E.
  eexists. eexists. split; [exact E|].
  cbn [answers].
  erewrite resumeLast_head by (simpw; reflexivity). cbn [resume].
  erewrite resumeLast_head by (simpw; reflexivity). cbn [resume].
  erewrite resumeLast_head by (simpw; reflexivity). cbn [resume].
  simpw.
  erewrite resumeLast_head by (simpw; reflexivity). cbn [resume].
  simpw.
  erewrite resumeLast_head by (simpw; reflexivity). cbn [resume].
  split; [reflexivity|].
  (unfold dockerCalls, resets, destroys, countEffects; simpw).
  (cbn [flat_map dockerCall app filter isResetEffect isDestroyEffect List.length hd_error]).
  repeat split; try reflexivity. f_equal. f_equal. lia.
Qed.

Lemma X6_spawn_success_witness :
  exists w',
    answers [Done; Done; Created 7; Done; Attached 9]
      (runContainer (set_imageName (lit "alpine") session0)) = Some w' /\
    dockerCalls w' = [Attach 7; Start 7; Create (lit "alpine"); Pull (lit "alpine"); Ping].
Proof.
  destruct (X6_spawn_success session0 (Some (lit "alpine")) 7 9 eq_refl)
    as (w1 & w' & E & A & _ & _ & _ & D & _).
  exists w'. injection E as <-. split; [exact A|exact D].
Defined.

(** X7: the guard of [runNewContainer] looks only at the two handles, and a
    spawn sets the first of them when the create call returns.  Until then,
    during the probe and the pull, the session still counts as ready: a
    second [runNewContainer] is accepted and its spawn runs beside the
    first. *)
Theorem X7_guard_open_until_created (w : World) (image image2 : option jsstring) :
  isReady w = true ->
  exists w1,
    runNewContainer image w = inr w1 /\
    isReady w1 = true /\
    (exists w2, answers [Done; Done] w1 = Some w2 /\ isReady w2 = true /\
                hd_error (tasks w2) = Some (nextId w + 2, Creating_create (effectiveImage image w))) /\
    (exists w3, runNewContainer image2 w1 = inr w3 /\
                tasks w3 =
                  (nextId w + 1, Creating_ping (effectiveImage image2 w1)) ::
                  (nextId w, Creating_ping (effectiveImage image w)) :: tasks w).
Proof.
  intros R. destruct (runNewContainer_idle image w R) as [E _].
  assert (R1 : isReady (runContainer (set_imageName (effectiveImage image w) w)) = true)
    by exact R.
  destruct (runNewContainer_idle image2 _ R1) as [E2 _].
  eexists. split; [exact E|]. split; [exact R1|]. split.
  - revert R. generalize (effectiveImage image w) as img. intros img R.
    eexists. cbn [answers].
    erewrite resumeLast_head by (simpw; reflexivity). cbn [resume].
    erewrite resumeLast_head by (simpw; reflexivity). cbn [resume].
    split; [reflexivity|]. split; [exact R|]. simpw. cbn [hd_error].
    do 2 f_equal. lia.
  - eexists. split; [exact E2|]. simpw. do 2 f_equal. lia.
Qed.

Lemma X7_guard_open_until_created_witness :
  exists w1, runNewContainer None session0 = inr w1 /\ isReady w1 = true.
Proof.
  destruct (X7_guard_open_until_created session0 None (Some (lit "alpine")) eq_refl)
    as (w1 & E & R & _).
  exists w1. split; [exact E|exact R].
Defined.

(** ** Where the content of the buffer comes from *)

Lemma appendOutput_suffix (buf data : jsstring) :
  exists older,
    buf ++ data = older ++ appendOutput buf data /\
    ((strlen (buf ++ data) <= 10000)%Z -> older = []) /\
    (older <> [] -> strlen (appendOutput buf data) = 5000%Z).
Proof.
  unfold appendOutput. destruct (Z.ltb_spec 10000 (strlen (buf ++ data))) as [L|L].
  - destruct (sliceFrom_last (buf ++ data) (-5000)) as [E1 E2]; [lia|].
    eexists. split; [exact E2|]. split; [lia|]. intros _. exact E1.
  - exists []. split; [reflexivity|]. split; [reflexivity|]. congruence.
Qed.

Lemma feed_history (chunks : list Buffer) : forall w,
  exists older,
    _buffer w ++ realText chunks = older ++ _buffer (feed chunks w) /\
    ((strlen (_buffer w ++ realText chunks) <= 10000)%Z -> older = []) /\
    (Z.min 5000 (strlen (_buffer w ++ realText chunks)) <= strlen (_buffer (feed chunks w)))%Z.
Proof.
  induction chunks as [|c cs IH]; intros w.
  - exists []. unfold realText. cbn [filter map List.concat feed fold_left app].
    rewrite app_nil_r. split; [reflexivity|]. split; [reflexivity|]. lia.
  - unfold feed. cbn [fold_left]. fold (feed cs (onData c w)).
    destruct (IH (onData c w)) as (o2 & E2 & N2 & M2).
    unfold realText in *. cbn [filter].
    destruct (isDockerMetadata (toString c)) eqn:M.
    + (* metadata: dropped *)
      assert (RO : isRealOutput c = false) by (unfold isRealOutput; now rewrite M).
      assert (D : onData c w = w) by (unfold onData; now rewrite M).
      rewrite RO, D in *. exists o2. auto.
    + assert (RO : isRealOutput c = true) by (unfold isRealOutput; now rewrite M).
      rewrite RO.
      cbn [map List.concat]. rewrite (onData_buffer c w M) in E2, N2, M2.
      destruct (appendOutput_suffix (_buffer w) (toString c)) as (o1 & E1 & N1 & T1).
      set (rest := List.concat (map toString (filter isRealOutput cs))) in *.
      exists (o1 ++ o2). split; [|split].
      * rewrite app_assoc, E1, <- !app_assoc. now rewrite E2.
      * intros L. rewrite !strlen_app in L. pose proof (strlen_nonneg rest) as P.
        assert (L1 : (strlen (_buffer w ++ toString c) <= 10000)%Z)
          by (rewrite strlen_app; lia).
        specialize (N1 L1). subst o1. cbn [app] in *.
        apply N2. rewrite <- E1, !strlen_app. lia.
      * destruct o1 as [|x o1].
        { cbn [app] in E1. rewrite <- E1 in M2. rewrite <- app_assoc in M2. exact M2. }
        { assert (T : strlen (appendOutput (_buffer w) (toString c)) = 5000%Z)
            by (apply T1; discriminate).
          rewrite strlen_app, T in M2. pose proof (strlen_nonneg rest). lia. }
Qed.

(** X8: what [buffer] returns is always the most recent part of the real
    output.  After any chunks, the buffered text is a suffix of the old
    buffer followed by the text of the chunks that are not metadata; it is
    all of it as long as that stays within 10,000 characters, and it never
    holds fewer than the last 5,000 characters of it. *)
Theorem X8_buffer_is_recent_output (w : World) (chunks : list Buffer) :
  exists older,
    _buffer w ++ realText chunks = older ++ _buffer (feed chunks w) /\
    ((strlen (_buffer w ++ realText chunks) <= 10000)%Z ->
     _buffer (feed chunks w) = _buffer w ++ realText chunks) /\
    (Z.min 5000 (strlen (_buffer w ++ realText chunks)) <= strlen (_buffer (feed chunks w)))%Z.
Proof.
  destruct (feed_history chunks w) as (older & E & N & M).
  exists older. split; [exact E|]. split; [|exact M].
  intros L. rewrite (N L) in E. cbn [app] in E. now symmetry.
Qed.

Lemma X8_buffer_is_recent_output_witness :
  _buffer (feed [lit "hi"; framedPrompt; lit " there"] session0) = lit "hi there".
Proof.
  destruct (X8_buffer_is_recent_output session0 [lit "hi"; framedPrompt; lit " there"])
    as (older & _ & N & _).
  rewrite N; [vm_compute; reflexivity | vm_compute; discriminate].
Defined.

Ltac kept_solve :=
  unfold KeptOrEmptied; cases; first [left; reflexivity | right; reflexivity].

Lemma KeptOrEmptied_refl w : KeptOrEmptied w w.
Proof. now left. Qed.

Lemma KeptOrEmptied_trans w1 w2 w3 :
  KeptOrEmptied w1 w2 -> KeptOrEmptied w2 w3 -> KeptOrEmptied w1 w3.
Proof. unfold KeptOrEmptied. intros [A|A] [B|B]; rewrite ?B, ?A; auto. Qed.

Lemma onStdin_kept data cm w : KeptOrEmptied w (snd (onStdin data (cm, w))).
Proof. unfold onStdin. kept_solve. Qed.

Lemma resumeDestroy_kept pc k o w w' :
  resumeDestroy pc k o w = Some w' -> KeptOrEmptied w w'.
Proof.
  intros E. destruct pc, o; try discriminate; cbn [resumeDestroy] in E;
    try (injection E as <-); kept_solve.
Qed.

Lemma resumeBoot_kept pc w w' : resumeBoot pc w = Some w' -> KeptOrEmptied w w'.
Proof.
  intros E. destruct pc as [|p| |k r c|]; cbn [resumeBoot] in E.
  4: do 7 (try destruct k as [|k]); try discriminate.
  all: try (injection E as <-); kept_solve.
Qed.

Lemma resume_kept t o w w' : resume t o w = Some w' -> KeptOrEmptied w w'.
Proof.
  intros E. destruct t.
  6: { cbn [resume] in E. eapply resumeDestroy_kept; eassumption. }
  6: { destruct o; try discriminate. cbn [resume] in E.
       eapply resumeBoot_kept; eassumption. }
  all: destruct o; try discriminate; cbn [resume] in E; injection E as <-;
    abstract_errors; kept_solve.
Qed.

Lemma step_kept w ev w' :
  notStreamData ev = true -> step w ev = Some w' -> KeptOrEmptied w w'.
Proof.
  intros A E. destruct ev; try discriminate A; cbn [step] in E.
  - unfold runNewContainer in E. kept_solve.
  - injection E as <-. kept_solve.
  - injection E as <-. kept_solve.
  - destruct (isListening s w); [|discriminate]. injection E as <-. kept_solve.
  - destruct (isListening s w); [|discriminate]. injection E as <-. kept_solve.
  - destruct (stdinFlowing w); [|discriminate]. injection E as <-. unfold stdinEvent.
    pose proof (onStdinAll_lift KeptOrEmptied KeptOrEmptied_refl KeptOrEmptied_trans
                  onStdin_kept data (stdinListeners w) w) as B.
    destruct (onStdinAll data (stdinListeners w) w) as [ls w'']. exact B.
  - destruct (takeTask id (tasks w)) as [[t rest]|]; [|discriminate].
    exact (resume_kept t o (set_tasks rest w) w' E).
Qed.

(** X9: nothing but a stream chunk ever adds to the buffer.  Over any events
    other than stream data (status banners, the echo of command mode, input
    sent to the container, spawns, teardowns, timers) the buffer is as it
    was or has been emptied. *)
Theorem X9_only_chunks_fill_buffer (w : World) (evs : list Event) (w' : World) :
  forallb notStreamData evs = true ->
  run w evs = Some w' ->
  _buffer w' = _buffer w \/ _buffer w' = [].
Proof.
  intros A E.
  exact (run_lift KeptOrEmptied notStreamData KeptOrEmptied_refl KeptOrEmptied_trans
           step_kept evs w w' A E).
Qed.

Lemma X9_only_chunks_fill_buffer_witness :
  _buffer (orElse (run attached stopStopEnd) attached) = _buffer attached \/
  _buffer (orElse (run attached stopStopEnd) attached) = [].
Proof.
  assert (A : forallb notStreamData stopStopEnd = true) by (vm_compute; reflexivity).
  assert (E : run attached stopStopEnd = Some (orElse (run attached stopStopEnd) attached))
    by (vm_compute; reflexivity).
  exact (X9_only_chunks_fill_buffer attached stopStopEnd _ A E).
Defined.

(** ** The input router *)

Lemma onStdin_plain (data : Buffer) (cm : CommandMode) (w : World) :
  plainKeys data = true -> inPassThrough cm = true ->
  onStdin data (cm, w) = (cm, stream_write (Raw data) w).
Proof.
  unfold plainKeys, inPassThrough. intros P M. apply andb_true_iff in P. destruct P as [P1 P2].
  apply negb_true_iff in P1, P2, M. unfold onStdin. now rewrite P1, P2, M.
Qed.

Lemma onStdinAll_plain (data : Buffer) (ls : list CommandMode) : forall w,
  plainKeys data = true -> forallb inPassThrough ls = true ->
  onStdinAll data ls w = (ls, Nat.iter (List.length ls) (stream_write (Raw data)) w).
Proof.
  induction ls as [|cm ls IH]; intros w P A; [reflexivity|].
  cbn [forallb] in A. apply andb_true_iff in A. destruct A as [A1 A2].
  cbn [onStdinAll]. rewrite (onStdin_plain data cm w P A1), (IH _ P A2).
  cbn [List.length]. now rewrite Nat.iter_succ_r.
Qed.

Lemma iter_write_effects (s : Stream) (x : Written) (n : nat) : forall w,
  ttyStream w = Some s ->
  effects (Nat.iter n (stream_write x) w) = repeat (StreamWrite s x) n ++ effects w /\
  ttyStream (Nat.iter n (stream_write x) w) = Some s.
Proof.
  induction n as [|n IH]; intros w T; [now split|].
  rewrite Nat.iter_succ. cbn [repeat app]. destruct (IH w T) as [E T'].
  set (v := Nat.iter n (stream_write x) w) in *. unfold stream_write.
  rewrite T'. cbn [emit effects set_effects ttyStream]. now rewrite E.
Qed.

Lemma stream_write_frame (x : Written) (w : World) :
  _buffer (stream_write x w) = _buffer w /\ container (stream_write x w) = container w /\
  ttyStream (stream_write x w) = ttyStream w /\ tasks (stream_write x w) = tasks w.
Proof.
  unfold stream_write. destruct (ttyStream w) eqn:T; repeat split; first [reflexivity|exact T].
Qed.

(** X10: every spawn registers one more stdin listener (X6) and none is ever
    removed; each of them sees every chunk.  So with [n] listeners in
    pass-through mode and a stream attached, a chunk typed once, other than
    Ctrl+C and the F12 sequence, is written to the container [n] times,
    verbatim, and nothing else changes. *)
Theorem X10_keys_forwarded_once_per_listener (w : World) (data : Buffer) (s : Stream) :
  ttyStream w = Some s ->
  stdinFlowing w = true ->
  plainKeys data = true ->
  forallb inPassThrough (stdinListeners w) = true ->
  exists w',
    step w (Stdin_data data) = Some w' /\
    effects w' =
      repeat (StreamWrite s (Raw data)) (List.length (stdinListeners w)) ++ effects w /\
    stdinListeners w' = stdinListeners w /\
    _buffer w' = _buffer w /\ container w' = container w /\ ttyStream w' = ttyStream w /\
    tasks w' = tasks w.
Proof.
  intros T F P A. cbn [step]. rewrite F. eexists. split; [reflexivity|].
  unfold stdinEvent. rewrite (onStdinAll_plain data (stdinListeners w) w P A).
  destruct (iter_write_effects s (Raw data) (List.length (stdinListeners w)) w T) as [E T'].
  cbn [effects set_stdinListeners stdinListeners _buffer container ttyStream tasks].
  split; [exact E|]. split; [reflexivity|].
  generalize (List.length (stdinListeners w)) as n. clear.
  induction n as [|n IH]; [now repeat split|].
  rewrite Nat.iter_succ.
  destruct (stream_write_frame (Raw data) (Nat.iter n (stream_write (Raw data)) w))
    as (B & C & T & K).
  rewrite B, C, T, K. exact IH.
Qed.

Lemma X10_keys_forwarded_once_per_listener_witness :
  exists w',
    step attached (Stdin_data (lit "ls")) = Some w' /\
    effects w' = StreamWrite 9 (Raw (lit "ls")) :: effects attached.
Proof.
  destruct (X10_keys_forwarded_once_per_listener attached (lit "ls") 9)
    as (w' & E & F & _); try (vm_compute; reflexivity).
  exists w'. split; [exact E|]. rewrite F. vm_compute. reflexivity.
Defined.








Lemma slice_drop_last (acc : jsstring) (c : char) : slice (acc ++ [c]) 0 (-1) = acc.
Proof.
  unfold slice, relIndex. rewrite strlen_app. change (strlen [c]) with 1%Z.
  pose proof (strlen_nonneg acc) as P. cbn [Z.ltb Z.compare].
  replace (Z.min 0 (strlen acc + 1)) with 0%Z by lia.
  replace (Z.max (Z.max (strlen acc + 1 + -1) 0 - 0) 0) with (strlen acc) by lia.
  cbn [Z.to_nat skipn]. unfold strlen. rewrite Nat2Z.id.
  rewrite firstn_app, firstn_all, Nat.sub_diag. cbn [firstn]. apply app_nil_r.
Qed.

Lemma keys_app (ds1 ds2 : list Buffer) (st : CommandMode * World) :
  keys (ds1 ++ ds2) st = keys ds2 (keys ds1 st).
Proof. unfold keys. apply fold_left_app. Qed.

Lemma echo_app (t1 t2 : list jsstring) (w : World) : echo (t1 ++ t2) w = echo t2 (echo t1 w).
Proof. unfold echo. apply fold_left_app. Qed.

Lemma isPrintable_range (c : N) : isPrintable c = true -> (32 <= c <= 126)%N.
Proof.
  unfold isPrintable. intros P. apply andb_true_iff in P. destruct P as [P1 P2].
  apply N.leb_le in P1, P2. lia.
Qed.

Lemma keys_typed (cs : jsstring) : forall (acc : jsstring) (w : World),
  forallb isPrintable cs = true ->
  keys (typed cs) (commandMode acc, w) =
  (commandMode (acc ++ cs), echo (map (fun c => [c]) cs) w).
Proof.
  induction cs as [|c cs IH]; intros acc w P.
  - now rewrite app_nil_r.
  - cbn [forallb] in P. apply andb_true_iff in P. destruct P as [Pc P].
    change (typed (c :: cs)) with ([c] :: typed cs).
    change (keys ([c] :: typed cs) (commandMode acc, w))
      with (keys (typed cs) (onStdin [c] (commandMode acc, w))).
    lazymatch goal with
    | |- keys _ ?x = _ =>
        replace x with (commandMode (acc ++ [c]), stdout_write (Text [c]) w)
          by (symmetry; exact (onStdin_printable acc w c (isPrintable_range c Pc)))
    end.
    rewrite IH by exact P. now rewrite <- app_assoc.
Qed.

Lemma onStdin_erase (acc : jsstring) (c : N) (w : World) :
  onStdin Backspace (commandMode (acc ++ [c]), w) =
  (commandMode acc, stdout_write (Text erase) w).
Proof.
  unfold commandMode. rewrite onStdin_backspace, slice_drop_last.
  assert (L : (0 <? strlen (acc ++ [c]))%Z = true).
  { apply Z.ltb_lt. rewrite strlen_app. pose proof (strlen_nonneg acc).
    change (strlen [c]) with 1%Z. lia. }
  rewrite L. reflexivity.
Qed.

Lemma keys_backspaces (tail : jsstring) : forall (acc : jsstring) (w : World),
  keys (repeat Backspace (List.length tail)) (commandMode (acc ++ tail), w) =
  (commandMode acc, echo (repeat erase (List.length tail)) w).
Proof.
  induction tail as [|c tail IH] using rev_ind; intros acc w.
  - now rewrite app_nil_r.
  - rewrite length_app, Nat.add_comm. cbn [List.length Nat.add repeat].
    change (keys (Backspace :: repeat Backspace (List.length tail))
                 (commandMode (acc ++ tail ++ [c]), w))
      with (keys (repeat Backspace (List.length tail))
                 (onStdin Backspace (commandMode (acc ++ tail ++ [c]), w))).
    rewrite app_assoc.
    lazymatch goal with
    | |- keys _ ?x = _ =>
        replace x with (commandMode (acc ++ tail), stdout_write (Text erase) w)
          by (symmetry; exact (onStdin_erase (acc ++ tail) c w))
    end.
    apply IH.
Qed.

(** X12: editing the command line.  In command mode, typing printable
    characters appends them to the pending command and echoes each one, and
    as many backspaces afterwards give back the command that was pending
    before, each one echoed as backspace, space, backspace; the listener is
    still in command mode, and nothing but the echo has happened. *)
Theorem X12_type_then_erase (cs acc : jsstring) (w : World) :
  forallb isPrintable cs = true ->
  keys (typed cs) (commandMode acc, w) =
    (commandMode (acc ++ cs), echo (map (fun c => [c]) cs) w) /\
  keys (typed cs ++ repeat Backspace (List.length cs)) (commandMode acc, w) =
    (commandMode acc,
     w |> echo (map (fun c => [c]) cs) |> echo (repeat erase (List.length cs))).
Proof.
  intros P. split; [now apply keys_typed|].
  rewrite keys_app, keys_typed by exact P. apply keys_backspaces.
Qed.

Lemma X12_type_then_erase_witness :
  keys (typed (lit "STOP") ++ repeat Backspace 4) (commandMode [], attached) =
  (commandMode [],
   attached |> echo [lit "S"; lit "T"; lit "O"; lit "P"] |> echo (repeat erase 4)).
Proof.
  exact (proj2 (X12_type_then_erase (lit "STOP") [] attached eq_refl)).
Defined.

(** ** After readiness: the terminal reservation and the fallback timer *)

Ltac resume_head := erewrite resumeLast_head by (simpw; reflexivity); cbn [resume resumeBoot].

(** X13: the terminal reservation.  Once the detached task is past its wait
    for readiness and the stream is held, its next seven steps write exactly
    six shell commands to the stream, in this order: LINES set to the rows
    of the host terminal minus two, COLUMNS set to its columns (24 and 80
    when the host reports none), the scroll region, clear, cursor home,
    clear.  Nothing else is sent to the container or the runtime, the latch
    and the buffer are untouched, and the task ends in the five-second wait
    of the fallback.  Without a stream nothing is written at all and the
    task goes to that wait at once. *)
Theorem X13_terminal_reservation (w : World) (id : nat) (rest : list (nat * Task)) :
  tasks w = (id, Boot B_delay500) :: rest ->
  (ttyStream w = None ->
   resumeLast Done w = Some (w |> set_tasks rest |> suspend (Boot B_delay5000))) /\
  (forall s, ttyStream w = Some s ->
   exists w',
     answers (repeat Done 7) w = Some w' /\
     streamWrites w' =
       rev (map (fun t => (s, Text t)) (terminalSetup (usableRows w) (actualCols w)))
       ++ streamWrites w /\
     tasks w' = (nextId w + 6, Boot B_delay5000) :: rest /\
     dockerCalls w' = dockerCalls w /\ _buffer w' = _buffer w /\
     readyResolve w' = readyResolve w /\ fires w' = fires w /\
     container w' = container w /\ ttyStream w' = Some s).
Proof.
  intros T. split.
  - intros N. erewrite resumeLast_head by exact T. cbn [resume resumeBoot].
    cbn [ttyStream set_tasks]. rewrite N. reflexivity.
  - intros s St. eexists. split.
    + cbn [repeat answers].
      erewrite resumeLast_head by exact T. cbn [resume resumeBoot].
      cbn [ttyStream set_tasks]. rewrite St.
      unfold sendInput, stream_write. simpw. rewrite St.
      do 6 (resume_head; unfold sendInput, stream_write; simpw; try rewrite St).
      reflexivity.
    + unfold streamWrites, dockerCalls, fires, countEffects, terminalSetup, usableRows, actualCols.
      simpw.
      cbn [flat_map streamWrite dockerCall app filter isResolveEffect List.length map rev].
      rewrite !Nat.add_succ_r, Nat.add_0_r.
      repeat split; first [reflexivity | assumption].
Qed.

Lemma X13_terminal_reservation_witness :
  exists w',
    answers (repeat Done 7) (orElse (run attached [Resume 6 Done; Stream_data 9 promptChunk;
                                                   Resume 7 Done]) attached) = Some w' /\
    streamWrites w' =
      rev (map (fun t => (9, Text t)) (terminalSetup 22 80)) ++ [(9, Text CR)].
Proof.
  set (w := orElse (run attached [Resume 6 Done; Stream_data 9 promptChunk; Resume 7 Done])
                   attached).
  assert (T : tasks w = [(8, Boot B_delay500)]) by (vm_compute; reflexivity).
  assert (St : ttyStream w = Some 9) by (vm_compute; reflexivity).
  destruct (proj2 (X13_terminal_reservation w 8 [] T) 9 St) as (w' & A & W & _).
  exists w'. split; [exact A|]. rewrite W.
  assert (U : usableRows w = 22%Z) by (vm_compute; reflexivity).
  assert (C : actualCols w = 80%Z) by (vm_compute; reflexivity).
  assert (Sw : streamWrites w = [(9, Text CR)]) by (vm_compute; reflexivity).
  rewrite U, C, Sw. reflexivity.
Defined.

(** X14: the fallback timer does not remember its session.  When the
    five-second wait of a detached task elapses while a latch is armed, that
    latch is fired, whichever session it belongs to: the promise it guards
    is resolved and a task waiting for it can go on, although no output has
    arrived; nothing else changes.  When no latch is armed the timer does
    nothing. *)
Theorem X14_fallback_fires_the_armed_latch
    (w : World) (id : nat) (rest : list (nat * Task)) :
  takeTask id (tasks w) = Some (Boot B_delay5000, rest) ->
  (readyResolve w = None -> step w (Resume id Done) = Some (set_tasks rest w)) /\
  (forall p, readyResolve w = Some p ->
   exists w',
     step w (Resume id Done) = Some w' /\
     resolved p w' = true /\ readyResolve w' = None /\ fires w' = S (fires w) /\
     tasks w' = rest /\ _buffer w' = _buffer w /\
     container w' = container w /\ ttyStream w' = ttyStream w /\
     effects w' = Resolve p :: effects w /\
     forall id' rest', takeTask id' rest = Some (Boot (B_ready p), rest') ->
       step w' (Resume id' Done) = Some (w' |> set_tasks rest' |> suspend (Boot B_delay500))).
Proof.
  intros T. split.
  - intros N. cbn [step]. rewrite T. cbn [resume resumeBoot readyResolve set_tasks].
    now rewrite N.
  - intros p R. eexists. split.
    + cbn [step]. rewrite T. cbn [resume resumeBoot readyResolve set_tasks].
      rewrite R. reflexivity.
    + unfold fires, countEffects, resolved. simpw.
      cbn [existsb isResolve filter isResolveEffect List.length].
      rewrite Nat.eqb_refl.
      repeat split; try reflexivity.
      intros id' rest' T'. cbn [step]. simpw. rewrite T'.
      cbn [resume resumeBoot]. unfold resolved. simpw. cbn [existsb isResolve].
      now rewrite Nat.eqb_refl.
Qed.

Lemma X14_fallback_fires_the_armed_latch_witness :
  exists w',
    step respawned (Resume 15 Done) = Some w' /\
    resets respawned = 1 /\ container respawned = Some 8 /\
    resolved 20 w' = true /\ _buffer w' = [] /\
    step w' (Resume 27 Done) <> None.
Proof.
  assert (T : takeTask 15 (tasks respawned) =
              Some (Boot B_delay5000, [(27, Boot (B_ready 20))]))
    by (vm_compute; reflexivity).
  assert (R : readyResolve respawned = Some 20) by (vm_compute; reflexivity).
  assert (B : _buffer respawned = []) by (vm_compute; reflexivity).
  destruct (proj2 (X14_fallback_fires_the_armed_latch respawned 15 _ T) 20 R)
    as (w' & St & Rs & _ & _ & _ & Bf & _ & _ & _ & Nx).
  exists w'. split; [exact St|]. split; [vm_compute; reflexivity|].
  split; [vm_compute; reflexivity|]. split; [exact Rs|]. split; [now rewrite Bf|].
  rewrite (Nx 27 [] eq_refl). discriminate.
Defined.

(** ** What the metadata classifier takes for metadata *)

Lemma startsWith_app (x post : jsstring) : startsWith (x ++ post) x = true.
Proof.
  induction x as [|c x IH]; [now destruct post|]. cbn [app startsWith].
  now rewrite N.eqb_refl, IH.
Qed.

Lemma includes_here (s x : jsstring) : startsWith s x = true -> includes s x = true.
Proof. intros H. destruct s; cbn [includes]; now rewrite H. Qed.

Lemma includes_middle (pre x post : jsstring) : includes (pre ++ x ++ post) x = true.
Proof.
  induction pre as [|c pre IH].
  - apply (includes_here (x ++ post) x), startsWith_app.
  - cbn [app includes]. rewrite IH. apply orb_true_r.
Qed.

Lemma startsWith_incl (x : jsstring) : forall s, startsWith s x = true -> incl x s.
Proof.
  induction x as [|c x IH]; intros s H; [intros ? []|].
  destruct s as [|d s]; [discriminate|]. cbn [startsWith] in H.
  apply andb_true_iff in H. destruct H as [E H]. apply N.eqb_eq in E. subst d.
  intros a [->|A]; [now left|right; now apply (IH s H)].
Qed.

Lemma includes_incl (x s : jsstring) : includes s x = true -> incl x s.
Proof.
  induction s as [|d s IH]; cbn [includes]; intros H.
  - rewrite orb_false_r in H. now apply startsWith_incl.
  - apply orb_true_iff in H. destruct H as [H|H]; [now apply startsWith_incl|].
    intros a A. right. now apply IH.
Qed.

Lemma trimStart_incl (s : jsstring) : incl (trimStart s) s.
Proof.
  induction s as [|c s IH]; [intros ? []|]. cbn [trimStart].
  destruct (isTrimmed c); [|apply incl_refl]. intros a A. right. now apply IH.
Qed.

Lemma trim_incl (s : jsstring) : incl (trim s) s.
Proof.
  unfold trim, trimEnd. rewrite !rev'_rev. intros a A.
  apply in_rev in A. apply trimStart_incl in A. apply in_rev in A.
  now apply trimStart_incl.
Qed.

Lemma plainText_spec (data : jsstring) (c : char) :
  plainText data = true -> In c data -> structural c = false.
Proof.
  unfold plainText. rewrite forallb_forall. intros H I. apply H in I.
  now apply negb_true_iff.
Qed.

Lemma plain_excludes (data x : jsstring) (c : char) :
  plainText data = true -> structural c = true -> In c x -> includes data x = false.
Proof.
  intros P St I. destruct (includes data x) eqn:E; [|reflexivity].
  apply includes_incl in E. apply E in I. rewrite (plainText_spec data c P I) in St.
  discriminate.
Qed.

Lemma plainText_kept (data : jsstring) : plainText data = true -> isDockerMetadata data = false.
Proof.
  intros P. unfold isDockerMetadata.
  repeat match goal with
         | |- context [includes data ?x] =>
             first [ rewrite (plain_excludes data x 58%N P eq_refl) by (vm_compute; tauto)
                   | rewrite (plain_excludes data x 123%N P eq_refl) by (vm_compute; tauto) ]
         end.
  rewrite andb_false_r. cbn [orb andb].
  unfold matchesMetadataPattern. destruct (trim data) as [|c rest] eqn:T; [reflexivity|].
  assert (I : In c data) by (apply trim_incl; rewrite T; now left).
  pose proof (plainText_spec data c P I) as St. unfold structural in St.
  apply orb_false_iff in St. destruct St as [St Q]. apply orb_false_iff in St.
  destruct St as [_ B]. now rewrite B, Q.
Qed.

(** X15: the classifier looks for its markers anywhere in a chunk.  A chunk
    whose text contains one of the ten marker strings at any position is
    dropped whole, whatever surrounds the marker: the session is exactly as
    before, so nothing of the chunk reaches the host terminal or the buffer,
    and the latch is not fired. *)
Theorem X15_marker_anywhere_drops_chunk
    (w : World) (s : Stream) (chunk : Buffer) (m before after : jsstring) :
  In m markers ->
  toString chunk = before ++ m ++ after ->
  isListening s w = true ->
  isDockerMetadata (toString chunk) = true /\
  onData chunk w = w /\
  step w (Stream_data s chunk) = Some w.
Proof.
  intros M E L.
  assert (D : isDockerMetadata (toString chunk) = true).
  { rewrite E. unfold isDockerMetadata.
    pose proof (includes_middle before m after) as I.
    unfold markers in M. cbn [In] in M.
    repeat (destruct M as [<-|M]; [rewrite I; rewrite ?orb_true_r; reflexivity|]).
    destruct M. }
  split; [exact D|].
  assert (O : onData chunk w = w) by (unfold onData; now rewrite D).
  split; [exact O|]. cbn [step]. now rewrite L, O.
Qed.

Lemma X15_marker_anywhere_drops_chunk_witness :
  step attached (Stream_data 9 (lit "grep: stdout:true: No such file or directory" ++ CR ++ LF))
  = Some attached.
Proof.
  refine (proj2 (proj2 (X15_marker_anywhere_drops_chunk attached 9
            (lit "grep: stdout:true: No such file or directory" ++ CR ++ LF)
            (lit "stdout:true") (lit "grep: ") (lit ": No such file or directory" ++ CR ++ LF)
            _ _ _))).
  - vm_compute. tauto.
  - vm_compute. reflexivity.
  - vm_compute. reflexivity.
Defined.

(** X16: text without a colon, an opening brace or a double quote is never
    taken for metadata: such a chunk is written to the host terminal as it
    came and appended to the buffer. *)
Theorem X16_plain_text_is_kept (w : World) (chunk : Buffer) :
  plainText (toString chunk) = true ->
  isDockerMetadata (toString chunk) = false /\
  In (Stdout (Raw chunk)) (effects (onData chunk w)) /\
  _buffer (onData chunk w) = appendOutput (_buffer w) (toString chunk).
Proof.
  intros P. pose proof (plainText_kept _ P) as D.
  split; [exact D|]. unfold onData. rewrite D.
  destruct (isFirstData w && (0 <? strlen (trim (toString chunk)))%Z);
    cases; cbn [In]; split; tauto.
Qed.

Lemma X16_plain_text_is_kept_witness :
  _buffer (onData (lit "total 0" ++ LF) attached) = lit "total 0" ++ LF.
Proof.
  assert (P : plainText (toString (lit "total 0" ++ LF)) = true) by (vm_compute; reflexivity).
  destruct (X16_plain_text_is_kept attached (lit "total 0" ++ LF) P) as (_ & _ & B).
  rewrite B. vm_compute. reflexivity.
Defined.

(** ** The input skills *)

Lemma replaceAll_plain (rule : Rule) (s : jsstring) :
  noBackslash s = true -> replaceAll rule 0 s = s.
Proof.
  induction s as [|c s IH]; [reflexivity|]. cbn [noBackslash forallb replaceAll].
  intros H. apply andb_true_iff in H. destruct H as [C H].
  apply negb_true_iff in C. rewrite C. f_equal. now apply IH.
Qed.

Lemma replaceAll_app (rule : Rule) (pre s : jsstring) :
  noBackslash pre = true -> replaceAll rule 0 (pre ++ s) = pre ++ replaceAll rule 0 s.
Proof.
  induction pre as [|c pre IH]; [reflexivity|]. cbn [noBackslash forallb replaceAll app].
  intros H. apply andb_true_iff in H. destruct H as [C H].
  apply negb_true_iff in C. rewrite C. f_equal. now apply IH.
Qed.

Lemma trimStart_blank (s : jsstring) : blank s = true -> trimStart s = [].
Proof.
  induction s as [|c s IH]; [reflexivity|]. cbn [blank forallb trimStart].
  intros H. apply andb_true_iff in H. destruct H as [C H]. rewrite C. now apply IH.
Qed.

Lemma trim_blank (s : jsstring) : blank s = true -> trim s = [].
Proof. intros H. unfold trim. rewrite (trimStart_blank s H). reflexivity. Qed.

(** X17: input that is only white space is not sent.  When the text handed
    to one of the two input skills consists of white space and line
    terminators only (a lone carriage return or line feed included), the
    skill writes nothing to the container and shows no status: the session
    is exactly as before. *)
Theorem X17_blank_input_is_not_sent (ttyInput : jsstring) (w : World) :
  blank ttyInput = true ->
  SendTTYInput ttyInput w = w /\ SendTTYInputWithEscapeSequences ttyInput w = w.
Proof.
  intros B. unfold SendTTYInput, SendTTYInputWithEscapeSequences, sendParsed.
  now rewrite (trim_blank ttyInput B).
Qed.

Lemma X17_blank_input_is_not_sent_witness :
  SendTTYInput CR attached = attached /\
  SendTTYInputWithEscapeSequences CR attached = attached.
Proof. apply (X17_blank_input_is_not_sent CR attached). reflexivity. Defined.

(** X18: text without a backslash is sent as it is.  Both parsers leave such
    a text unchanged, so when it is not blank and the stream is held, either
    skill writes exactly that text to the container, once, and makes no
    call to the runtime. *)
Theorem X18_plain_input_is_sent_verbatim (ttyInput : jsstring) (w : World) (s : Stream) :
  noBackslash ttyInput = true ->
  trim ttyInput <> [] ->
  ttyStream w = Some s ->
  parseCarriageReturn ttyInput = ttyInput /\
  parseEscapeSequences ttyInput = ttyInput /\
  SendTTYInputWithEscapeSequences ttyInput w = SendTTYInput ttyInput w /\
  streamWrites (SendTTYInput ttyInput w) = (s, Text ttyInput) :: streamWrites w /\
  dockerCalls (SendTTYInput ttyInput w) = dockerCalls w /\
  _buffer (SendTTYInput ttyInput w) = _buffer w.
Proof.
  intros P T St.
  assert (E1 : parseCarriageReturn ttyInput = ttyInput) by now apply replaceAll_plain.
  assert (E2 : parseEscapeSequences ttyInput = ttyInput).
  { unfold parseEscapeSequences. now rewrite !(replaceAll_plain _ ttyInput) by exact P. }
  split; [exact E1|]. split; [exact E2|].
  unfold SendTTYInput, SendTTYInputWithEscapeSequences, sendParsed. rewrite E1, E2.
  destruct (trim ttyInput) as [|c t]; [now elim T|].
  unfold streamWrites, dockerCalls, sendInput, stream_write. simpw. rewrite St. simpw.
  cbn [flat_map streamWrite dockerCall app]. repeat split; reflexivity.
Qed.

Lemma X18_plain_input_is_sent_verbatim_witness :
  streamWrites (SendTTYInput (lit "ls -la" ++ CR) attached) = [(9, Text (lit "ls -la" ++ CR))].
Proof.
  assert (P : noBackslash (lit "ls -la" ++ CR) = true) by (vm_compute; reflexivity).
  assert (T : trim (lit "ls -la" ++ CR) <> []) by (vm_compute; discriminate).
  assert (St : ttyStream attached = Some 9) by (vm_compute; reflexivity).
  destruct (X18_plain_input_is_sent_verbatim _ attached 9 P T St) as (_ & _ & _ & W & _).
  rewrite W. vm_compute. reflexivity.
Defined.

Ltac pass before after :=
  rewrite (replaceAll_app _ before) by assumption;
  cbn [replaceAll app escape unicodeEscape octalEscape hexEscape octValue hexValue
       N.eqb N.leb N.compare Pos.eqb Pos.compare Pos.compare_cont andb];
  rewrite ?(replaceAll_plain _ after) by assumption.

(** X19: an octal escape that starts with 0 is not decoded.  The NUL rule
    runs before the octal rule and takes the backslash and the 0, so what
    follows (33 in the usual ESC escape, written backslash 033) stays in the
    text as it is: backslash, 0 and any text [after] become the NUL character
    followed by [after]. *)
Theorem X19_nul_rule_shadows_octal (before after : jsstring) :
  noBackslash before = true ->
  noBackslash after = true ->
  parseEscapeSequences (before ++ [92; 48]%N ++ after) = before ++ [0%N] ++ after.
Proof.
  intros B A. unfold parseEscapeSequences.
  do 11 (pass before after). reflexivity.
Qed.

Lemma X19_nul_rule_shadows_octal_witness :
  parseEscapeSequences (lit "\033[31m") = [0%N] ++ lit "33[31m" /\
  parseEscapeSequences (lit "\x1b[31m") = ESC ++ lit "[31m".
Proof.
  split; [|vm_compute; reflexivity].
  apply (X19_nul_rule_shadows_octal [] (lit "33[31m")); reflexivity.
Defined.

(** X20: a doubled backslash does not protect the letter after it.  The rule
    for literal backslashes runs last, after the named escapes have been
    replaced: two backslashes followed by n, r, t, b, f, v or 0 become one
    backslash followed by the control character, not a backslash followed
    by the letter. *)
Theorem X20_doubled_backslash_not_literal (before after : jsstring) (k r : char) :
  In (k, r) namedEscapes ->
  noBackslash before = true ->
  noBackslash after = true ->
  parseEscapeSequences (before ++ [92; 92; k]%N ++ after) = before ++ [92; r]%N ++ after.
Proof.
  intros K B A. unfold namedEscapes in K. cbn [In] in K. unfold parseEscapeSequences.
  repeat (destruct K as [K|K]; [injection K as <- <-; do 11 (pass before after); reflexivity|]).
  destruct K.
Qed.

Lemma X20_doubled_backslash_not_literal_witness :
  parseEscapeSequences (lit "echo a\\nb") = lit "echo a" ++ [92%N] ++ LF ++ lit "b".
Proof.
  apply (X20_doubled_backslash_not_literal (lit "echo a") (lit "b") 110%N 10%N).
  - vm_compute. tauto.
  - reflexivity.
  - reflexivity.
Defined.

(** ** The stdin listeners *)

Ltac listen_solve :=
  unfold ListenersKept, SameListeners, attachedSessions, countEffects; cases;
  cbn [filter isStdinResume List.length]; rewrite ?length_app; cbn [List.length];
  first [lia | split; first [reflexivity | lia]].

Lemma ListenersKept_refl w : ListenersKept w w.
Proof. unfold ListenersKept. lia. Qed.

Lemma ListenersKept_trans w1 w2 w3 :
  ListenersKept w1 w2 -> ListenersKept w2 w3 -> ListenersKept w1 w3.
Proof. unfold ListenersKept. lia. Qed.

Lemma SameListeners_refl w : SameListeners w w.
Proof. now split. Qed.

Lemma SameListeners_trans w1 w2 w3 :
  SameListeners w1 w2 -> SameListeners w2 w3 -> SameListeners w1 w3.
Proof. unfold SameListeners. intros [A B] [C D]. split; congruence. Qed.

Lemma onData_listeners chunk w : ListenersKept w (onData chunk w).
Proof. unfold onData. listen_solve. Qed.

Lemma onEnd_listeners w : ListenersKept w (onEnd w).
Proof. listen_solve. Qed.

Lemma onError_listeners e w : ListenersKept w (onError e w).
Proof. listen_solve. Qed.

Lemma stop_listeners w : ListenersKept w (stop w).
Proof. listen_solve. Qed.

Lemma sendInput_listeners c w : ListenersKept w (sendInput c w).
Proof. listen_solve. Qed.

Lemma onStdin_listeners data cm w : SameListeners w (snd (onStdin data (cm, w))).
Proof. unfold onStdin. listen_solve. Qed.

Lemma onStdinAll_length data ls : forall w,
  List.length (fst (onStdinAll data ls w)) = List.length ls.
Proof.
  induction ls as [|cm ls IH]; intros w; cbn [onStdinAll]; [reflexivity|].
  destruct (onStdin data (cm, w)) as [cm' w']. specialize (IH w').
  destruct (onStdinAll data ls w') as [ls'' w'']. cbn [fst List.length] in *. now rewrite IH.
Qed.

Lemma resumeDestroy_listeners pc k o w w' :
  resumeDestroy pc k o w = Some w' -> ListenersKept w w'.
Proof.
  intros E. destruct pc, o; try discriminate; cbn [resumeDestroy] in E;
    try (injection E as <-); listen_solve.
Qed.

Lemma resumeBoot_listeners pc w w' :
  resumeBoot pc w = Some w' -> ListenersKept w w'.
Proof.
  intros E. destruct pc as [|p| |k r c|]; cbn [resumeBoot] in E.
  4: do 7 (try destruct k as [|k]); try discriminate.
  all: try (injection E as <-); listen_solve.
Qed.

Lemma resume_listeners t o w w' :
  resume t o w = Some w' -> ListenersKept w w'.
Proof.
  intros E. destruct t.
  6: { cbn [resume] in E. eapply resumeDestroy_listeners; eassumption. }
  6: { destruct o; try discriminate. cbn [resume] in E.
       eapply resumeBoot_listeners; eassumption. }
  all: destruct o; try discriminate; cbn [resume] in E; injection E as <-;
    abstract_errors; listen_solve.
Qed.

Lemma step_listeners w ev w' :
  anyEvent ev = true -> step w ev = Some w' -> ListenersKept w w'.
Proof.
  intros _ E. destruct ev; cbn [step] in E.
  - unfold runNewContainer in E. listen_solve.
  - injection E as <-. apply stop_listeners.
  - injection E as <-. apply sendInput_listeners.
  - destruct (isListening s w); [|discriminate]. injection E as <-. apply onData_listeners.
  - destruct (isListening s w); [|discriminate]. injection E as <-. apply onEnd_listeners.
  - destruct (isListening s w); [|discriminate]. injection E as <-. apply onError_listeners.
  - destruct (stdinFlowing w); [|discriminate]. injection E as <-. unfold stdinEvent.
    pose proof (onStdinAll_lift SameListeners SameListeners_refl SameListeners_trans
                  onStdin_listeners data (stdinListeners w) w) as [_ B].
    pose proof (onStdinAll_length data (stdinListeners w) w) as L.
    destruct (onStdinAll data (stdinListeners w) w) as [ls w'']. cbn [snd fst] in *.
    unfold ListenersKept, attachedSessions, countEffects in *. simpw. lia.
  - destruct (takeTask id (tasks w)) as [[t rest]|]; [|discriminate].
    eapply ListenersKept_trans; [|eapply resume_listeners; exact E]. listen_solve.
Qed.

(** X21: stdin listeners pile up.  No event ever removes a stdin listener,
    and every session that gets attached registers one more: over any
    events, the number of listeners grows by exactly the number of times
    stdin was set up in between.  So in an executor that has attached n
    sessions, n listeners handle every chunk typed, those of ended sessions
    included. *)
Theorem X21_stdin_listeners_pile_up (w : World) (evs : list Event) (w' : World) :
  run w evs = Some w' ->
  attachedSessions w <= attachedSessions w' /\
  List.length (stdinListeners w') =
  List.length (stdinListeners w) + (attachedSessions w' - attachedSessions w).
Proof.
  intros E.
  pose proof (run_lift ListenersKept anyEvent ListenersKept_refl ListenersKept_trans
                step_listeners evs w w' (forallb_anyEvent evs) E) as [M L].
  split; [exact M|lia].
Qed.

Lemma X21_stdin_listeners_pile_up_witness :
  List.length (stdinListeners respawned) = 2.
Proof.
  assert (E : run session0 (spawnOk ++ secondSession) = Some respawned)
    by (vm_compute; reflexivity).
  destruct (X21_stdin_listeners_pile_up session0 _ respawned E) as [_ L].
  rewrite L. vm_compute. reflexivity.
Defined.

(** ** Handing the terminal back *)























